(** * Product data access layer: query construction, cached reads, envelopes

    A shallow embedding of the storefront's product readers
    ([getProducts], [getFeaturedProducts], [getProductCountByCategory],
    [getCategories], [getProductById], [getRelatedProducts],
    [getProductsByCategory], [getSubCategoriesOfCategory]).

    JavaScript values are modelled as the runtime has them: numbers are
    IEEE 754 binary64 floats, objects are insertion-ordered property lists,
    strings are sequences of code units (here restricted to the 8-bit
    range).  The database driver, the connection bootstrap, the schema
    validator and the framework's dynamic-rendering marker are external
    collaborators and are collected in an environment record; the
    framework cache is a process-wide store threaded through every call. *)

From Stdlib Require Import ZArith Bool List Ascii String Lia.
From Stdlib Require Import Floats.
From stdpp Require Import base option gmap strings list.
Import ListNotations.

Local Open Scope string_scope.
Local Open Scope list_scope.
#[local] Set Warnings "-register-all".

(** ** Strings as the runtime sees them *)

Module Js.

(** [String.prototype.split] with a one-character separator and no limit:
    the result always has at least one component. *)
Fixpoint split (sep : ascii) (s : string) : list string :=
  match s with
  | EmptyString => [EmptyString]
  | String c rest =>
      if Ascii.eqb c sep then EmptyString :: split sep rest
      else match split sep rest with
           | h :: t => String c h :: t
           | [] => [String c EmptyString]
           end
  end.

(** [Array.prototype.join] on an array of strings. *)
Fixpoint join (sep : string) (l : list string) : string :=
  match l with
  | [] => EmptyString
  | [x] => x
  | x :: rest => x +:+ sep +:+ join sep rest
  end.

(** Membership of a character in a string, as a boolean. *)
Fixpoint occurs (c : ascii) (s : string) : bool :=
  match s with
  | EmptyString => false
  | String d rest => Ascii.eqb d c || occurs c rest
  end.

(** StrWhiteSpaceChar, restricted to code units below 256:
    TAB, LF, VT, FF, CR, SP and NBSP. *)
Definition is_whitespace (c : ascii) : bool :=
  let n := nat_of_ascii c in
  (Nat.leb 9 n && Nat.leb n 13) || Nat.eqb n 32 || Nat.eqb n 160.

Fixpoint trim_start (s : string) : string :=
  match s with
  | String c rest => if is_whitespace c then trim_start rest else s
  | EmptyString => EmptyString
  end.

Fixpoint trim_end (s : string) : string :=
  match s with
  | EmptyString => EmptyString
  | String c rest =>
      match trim_end rest with
      | EmptyString => if is_whitespace c then EmptyString else String c EmptyString
      | r => String c r
      end
  end.

Definition trim (s : string) : string := trim_end (trim_start s).

(** If [s] starts with [p], the remainder of [s]. *)
Fixpoint strip_prefix (p s : string) : option string :=
  match p, s with
  | EmptyString, _ => Some s
  | String a p', String b s' => if Ascii.eqb a b then strip_prefix p' s' else None
  | String _ _, EmptyString => None
  end.

End Js.

(** ** Numbers: binary64, and the conversions from strings *)

Module Num.

Definition digit_of (c : ascii) : option Z :=
  let n := Z.of_nat (nat_of_ascii c) in
  if (48 <=? n)%Z && (n <=? 57)%Z then Some (n - 48)%Z else None.

(** Value of a digit in the given radix (2, 8 or 16), letters in either case. *)
Definition radix_digit_of (radix : Z) (c : ascii) : option Z :=
  let n := Z.of_nat (nat_of_ascii c) in
  let v := if (48 <=? n)%Z && (n <=? 57)%Z then Some (n - 48)%Z
           else if (97 <=? n)%Z && (n <=? 102)%Z then Some (n - 87)%Z
           else if (65 <=? n)%Z && (n <=? 70)%Z then Some (n - 55)%Z
           else None in
  match v with
  | Some d => if (d <? radix)%Z then Some d else None
  | None => None
  end.

(** Reads a maximal run of decimal digits: accumulated value (continuing
    from [acc]), number of digits read, and the unread rest. *)
Fixpoint digits (s : string) (acc : Z) (n : Z) : Z * Z * string :=
  match s with
  | String c rest =>
      match digit_of c with
      | Some d => digits rest (10 * acc + d)%Z (n + 1)%Z
      | None => (acc, n, s)
      end
  | EmptyString => (acc, n, s)
  end.

(** Reads a run of digits of a radix that must extend to the end of the
    string (NonDecimalIntegerLiteral after its prefix). *)
Fixpoint radix_digits (radix : Z) (s : string) (acc : Z) : option Z :=
  match s with
  | EmptyString => Some acc
  | String c rest =>
      match radix_digit_of radix c with
      | Some d => radix_digits radix rest (radix * acc + d)%Z
      | None => None
      end
  end.

(** The binary64 nearest (ties to even) to the integer [z]. *)
Definition of_Z (z : Z) : float :=
  SF2Prim (binary_normalize prec emax z 0 false).

(** The binary64 nearest (ties to even) to [(-1)^neg * m * 10^e10];
    the rounding is done once, on the exact rational. *)
Definition of_decimal (neg : bool) (m : Z) (e10 : Z) : float :=
  match m with
  | Zpos p =>
      if (0 <=? e10)%Z
      then SF2Prim (binary_normalize prec emax
                      (if neg then - (m * 10 ^ e10) else m * 10 ^ e10)%Z 0 neg)
      else match (10 ^ (- e10))%Z with
           | Zpos q =>
               SF2Prim (SFdiv prec emax (S754_finite neg p 0) (S754_finite false q 0))
           | _ => nan
           end
  | _ => if neg then neg_zero else zero
  end.

(** A scanned StrUnsignedDecimalLiteral. *)
Variant literal :=
| LInfinity
| LDecimal (mantissa : Z) (exponent : Z).

Definition literal_value (neg : bool) (l : literal) : float :=
  match l with
  | LInfinity => if neg then neg_infinity else infinity
  | LDecimal m e => of_decimal neg m e
  end.

(** Optional ExponentPart: [e] or [E], an optional sign and at least one
    digit; when the part is not complete nothing is consumed. *)
Definition exponent_part (s : string) : Z * string :=
  match s with
  | String c rest =>
      if Ascii.eqb c "e" || Ascii.eqb c "E" then
        let '(neg, body) :=
          match rest with
          | String sg body' =>
              if Ascii.eqb sg "-" then (true, body')
              else if Ascii.eqb sg "+" then (false, body')
              else (false, rest)
          | EmptyString => (false, rest)
          end in
        let '(v, n, rest') := digits body 0%Z 0%Z in
        if (n =? 0)%Z then (0%Z, s)
        else ((if neg then - v else v)%Z, rest')
      else (0%Z, s)
  | EmptyString => (0%Z, s)
  end.

(** The longest prefix of [s] that is a StrUnsignedDecimalLiteral, with
    the unread rest. *)
Definition unsigned_literal (s : string) : option (literal * string) :=
  match Js.strip_prefix "Infinity" s with
  | Some rest => Some (LInfinity, rest)
  | None =>
      let '(ip, ni, r1) := digits s 0%Z 0%Z in
      match r1 with
      | String "." r1' =>
          let '(m, nf, r2) := digits r1' ip 0%Z in
          if (ni =? 0)%Z && (nf =? 0)%Z then None
          else let '(e, r3) := exponent_part r2 in
               Some (LDecimal m (e - nf)%Z, r3)
      | _ =>
          if (ni =? 0)%Z then None
          else let '(e, r3) := exponent_part r1 in
               Some (LDecimal ip e, r3)
      end
  end.

(** The longest prefix of [s] that is a StrDecimalLiteral (optional sign). *)
Definition signed_literal (s : string) : option (float * string) :=
  let '(neg, body) :=
    match s with
    | String c rest =>
        if Ascii.eqb c "-" then (true, rest)
        else if Ascii.eqb c "+" then (false, rest)
        else (false, s)
    | EmptyString => (false, s)
    end in
  match unsigned_literal body with
  | Some (l, rest) => Some (literal_value neg l, rest)
  | None => None
  end.

(** The global [parseFloat] applied to a string. *)
Definition parseFloat (s : string) : float :=
  match signed_literal (Js.trim_start s) with
  | Some (v, _) => v
  | None => nan
  end.

(** StringToNumber, the conversion [Number(s)] performs on a string. *)
Definition StringToNumber (s : string) : float :=
  let t := Js.trim s in
  match t with
  | EmptyString => zero
  | String "0" (String x rest) =>
      let radix :=
        if Ascii.eqb x "x" || Ascii.eqb x "X" then Some 16%Z
        else if Ascii.eqb x "o" || Ascii.eqb x "O" then Some 8%Z
        else if Ascii.eqb x "b" || Ascii.eqb x "B" then Some 2%Z
        else None in
      match radix with
      | Some r =>
          match rest with
          | EmptyString => nan
          | _ => match radix_digits r rest 0%Z with
                 | Some v => of_Z v
                 | None => nan
                 end
          end
      | None =>
          match signed_literal t with
          | Some (v, EmptyString) => v
          | _ => nan
          end
      end
  | _ =>
      match signed_literal t with
      | Some (v, EmptyString) => v
      | _ => nan
      end
  end.

(** ToBoolean on a number: [+0], [-0] and [NaN] are falsy. *)
Definition truthy (x : float) : bool := negb (is_zero x || is_nan x).

(** [x || d] on numbers. *)
Definition or_else (x d : float) : float := if truthy x then x else d.

(** [Math.ceil]. *)
Definition ceil (x : float) : float :=
  match Prim2SF x with
  | S754_finite s m e =>
      if (0 <=? e)%Z then x
      else
        let d := (2 ^ (- e))%Z in
        let q := (Zpos m / d)%Z in
        let r := (Zpos m mod d)%Z in
        if s then (if (q =? 0)%Z then neg_zero else of_Z (- q))
        else of_Z (if (r =? 0)%Z then q else q + 1)
  | _ => x
  end.

End Num.

(** ** Values, objects and search parameters *)

(** JSON-like runtime values.  An object is its list of own properties in
    insertion order, with at most one entry per key. *)
Inductive json :=
| JUndefined
| JNull
| JBool (b : bool)
| JNum (x : float)
| JStr (s : string)
| JArr (items : list json)
| JObj (props : list (string * json)).

(** Property read [o.k]: [undefined] when the property is missing. *)
Fixpoint get_prop (k : string) (props : list (string * json)) : json :=
  match props with
  | [] => JUndefined
  | (k', v) :: rest => if String.eqb k' k then v else get_prop k rest
  end.

(** Property write [o.k = v]: in place when the key exists, appended
    otherwise. *)
Fixpoint set_prop (k : string) (v : json) (props : list (string * json))
  : list (string * json) :=
  match props with
  | [] => [(k, v)]
  | (k', v') :: rest =>
      if String.eqb k' k then (k, v) :: rest else (k', v') :: set_prop k v rest
  end.

Definition has_prop (k : string) (props : list (string * json)) : bool :=
  existsb (fun kv => String.eqb (fst kv) k) props.

(** Object spread [{...o}] of a value that is an object; spreading
    [undefined] or [null] contributes no property. *)
Definition spread (v : json) : list (string * json) :=
  match v with
  | JObj props => props
  | _ => []
  end.

(** ToBoolean. *)
Definition to_boolean (v : json) : bool :=
  match v with
  | JUndefined | JNull => false
  | JBool b => b
  | JNum x => Num.truthy x
  | JStr s => negb (String.eqb s "")
  | JArr _ | JObj _ => true
  end.

(** A search parameter value: [string | string[] | undefined]. *)
Variant ParamValue :=
| PUndefined
| PString (s : string)
| PStrings (l : list string).

(** [SearchParams]: a plain object, given by its properties in the order
    they were added, with at most one entry per key. *)
Definition SearchParams := list (string * ParamValue).

(** The array index a property key denotes, if any: a canonical decimal
    numeral (no leading zero, no sign) below [2^32 - 1]. *)
Definition array_index (k : string) : option Z :=
  let '(v, n, rest) := Num.digits k 0%Z 0%Z in
  match rest with
  | EmptyString =>
      let canonical :=
        String.eqb k "0"
        || negb (match k with
                 | String c _ => Ascii.eqb c "0"
                 | EmptyString => false
                 end) in
      if (0 <? n)%Z && canonical && (v <=? 4294967294)%Z then Some v else None
  | _ => None
  end.

Fixpoint insert_indexed (i : Z) (kv : string * ParamValue)
    (sorted : list (Z * (string * ParamValue))) : list (Z * (string * ParamValue)) :=
  match sorted with
  | [] => [(i, kv)]
  | (j, kv') :: rest =>
      if (i <=? j)%Z then (i, kv) :: sorted else (j, kv') :: insert_indexed i kv rest
  end.

(** [Object.entries]: the properties whose key is an array index first,
    in ascending index order, then the others in the order they were
    added. *)
Definition Object_entries (o : SearchParams) : list (string * ParamValue) :=
  map snd
      (fold_right (fun kv acc =>
                     match array_index (fst kv) with
                     | Some i => insert_indexed i kv acc
                     | None => acc
                     end)
                  [] o)
  ++ List.filter (fun kv => match array_index (fst kv) with
                            | Some _ => false
                            | None => true
                            end)
                 o.

Fixpoint param (k : string) (input : SearchParams) : ParamValue :=
  match input with
  | [] => PUndefined
  | (k', v) :: rest => if String.eqb k' k then v else param k rest
  end.

Definition param_truthy (v : ParamValue) : bool :=
  match v with
  | PUndefined => false
  | PString s => negb (String.eqb s "")
  | PStrings _ => true
  end.

(** ToString, as a template literal applies it. *)
Definition param_to_string (v : ParamValue) : string :=
  match v with
  | PUndefined => "undefined"
  | PString s => s
  | PStrings l => Js.join "," l
  end.

Definition param_to_json (v : ParamValue) : json :=
  match v with
  | PUndefined => JUndefined
  | PString s => JStr s
  | PStrings l => JArr (map JStr l)
  end.

(** [Number(v)]: [undefined] converts to NaN, a string by StringToNumber,
    an array through its string form. *)
Definition Number (v : ParamValue) : float :=
  match v with
  | PUndefined => nan
  | PString s => Num.StringToNumber s
  | PStrings l => Num.StringToNumber (Js.join "," l)
  end.

(** [v || ''] inside a template literal. *)
Definition or_empty (v : ParamValue) : string :=
  if param_truthy v then param_to_string v else "".

(** ** Outcomes, the world and the environment *)

Record Error := { message : string }.

Variant outcome (A : Type) :=
| Returned (a : A)
| Thrown (e : Error).
Arguments Returned {A} a.
Arguments Thrown {A} e.

Variant Collection := Products | Categories | Subcategories.

(** The calls made on the models, as the driver receives them. *)
Variant Query :=
| QAggregate (c : Collection) (pipeline : list json)
| QCountDocuments (c : Collection) (filter : json)
| QFind (c : Collection) (filter : json)
        (limit : option Z) (sort : option json) (lean : bool)
| QFindById (c : Collection) (id : string) (select : option string).

(** The fields of the validated search parameters that [getProducts] reads. *)
Record Search := {
  sort : option string;
  categories : option string;
  subcategories : option string;
  price_range : option string;
}.

(** External collaborators.  [connectDb] is the connection bootstrap,
    [noStore] the framework's marker, [schema_parse] is
    [getProductsSchema.parse]; the four remaining fields are the driver. *)
Record Env := {
  connectDb : outcome unit;
  noStore : outcome unit;
  schema_parse : SearchParams -> outcome Search;
  aggregate : Collection -> list json -> outcome (list json);
  countDocuments : Collection -> json -> outcome float;
  find : Collection -> json -> option Z -> option json -> bool -> outcome (list json);
  findById : Collection -> string -> option string -> outcome json;
}.

(** An entry of the framework cache. *)
Record Entry := {
  cached : json;
  stored_at : Z;
  entry_tags : list string;
}.

(** The process-wide state: the cache store, the queries issued so far
    (oldest first) and the current time in seconds. *)
Record World := {
  store : gmap (list string) Entry;
  issued : list Query;
  clock : Z;
}.

Definition M (A : Type) : Type := World -> outcome A * World.

#[export] Instance M_ret : MRet M := fun A a w => (Returned a, w).

#[export] Instance M_bind : MBind M := fun A B f m w =>
  match m w with
  | (Returned a, w') => f a w'
  | (Thrown e, w') => (Thrown e, w')
  end.

Definition lift {A} (o : outcome A) : M A := fun w => (o, w).

(** [try { body } catch (err) { handler err }]. *)
Definition try_catch {A} (body : M A) (handler : Error -> M A) : M A := fun w =>
  match body w with
  | (Thrown e, w') => handler e w'
  | r => r
  end.

Definition record_query (q : Query) (w : World) : World :=
  {| store := store w; issued := issued w ++ [q]; clock := clock w |}.

Definition at_time (t : Z) (w : World) : World :=
  {| store := store w; issued := issued w; clock := t |}.

(** ** The framework cache *)

(** One use of [cache(callback, keyParts, {revalidate, tags})]. *)
Record CacheCall := {
  callback : M json;
  keyParts : list string;
  revalidate : Z;
  tags : list string;
}.

(** The entry a call may be served from: stored under the call's key and
    younger than the call's revalidation period. *)
Definition fresh_entry (c : CacheCall) (w : World) : option Entry :=
  match store w !! keyParts c with
  | Some e => if (clock w <? stored_at e + revalidate c)%Z then Some e else None
  | None => None
  end.

Definition remember (c : CacheCall) (v : json) (w : World) : World :=
  {| store := <[keyParts c := {| cached := v; stored_at := clock w;
                                 entry_tags := tags c |}]> (store w);
     issued := issued w;
     clock := clock w |}.

(** Modelled from the spec: the framework's [unstable_cache] is not part of
    the sources.  Its contract is the one of the cache-wrapped reader:
    keyed by the key parts, with a revalidation period in seconds and a set
    of tags; the callback is executed when no entry younger than the
    period is stored under the key, and its result is stored; otherwise
    the stored value is returned.  A failure of the callback is not stored
    and is passed on. *)
Definition unstable_cache (c : CacheCall) : M json := fun w =>
  match fresh_entry c w with
  | Some e => (Returned (cached e), w)
  | None =>
      match callback c w with
      | (Returned v, w') => (Returned v, remember c v w')
      | (Thrown e, w') => (Thrown e, w')
      end
  end.

(** Modelled from the spec: the helper [ApiResponse] is not part of the
    sources.  The envelope is [{success: true, message, data}] for a
    success and [{success: false, message}] for a failure. *)
Definition ApiResponse_success (msg : string) (data : json) : json :=
  JObj [("success", JBool true); ("message", JStr msg); ("data", data)].

Definition ApiResponse_failure (msg : string) : json :=
  JObj [("success", JBool false); ("message", JStr msg)].

(** Property read on a value that is not [null] or [undefined]. *)
Definition member (k : string) (v : json) : json :=
  match v with
  | JObj props => get_prop k props
  | _ => JUndefined
  end.

(** Array destructuring [const [a, b] = l]. *)
Definition destructure2 (l : list string) : option string * option string :=
  (l !! 0%nat, l !! 1%nat).

Definition created_desc : json := JObj [("createdAt", JNum (-1))].

(** ** The readers *)

Section Readers.

Variable env : Env.

Definition db_aggregate (c : Collection) (pipeline : list json) : M (list json) :=
  fun w => (aggregate env c pipeline, record_query (QAggregate c pipeline) w).

Definition db_countDocuments (c : Collection) (filter : json) : M float :=
  fun w => (countDocuments env c filter, record_query (QCountDocuments c filter) w).

Definition db_find (c : Collection) (filter : json)
    (limit : option Z) (order : option json) (lean : bool) : M (list json) :=
  fun w => (find env c filter limit order lean,
            record_query (QFind c filter limit order lean) w).

Definition db_findById (c : Collection) (id : string) (select : option string) : M json :=
  fun w => (findById env c id select, record_query (QFindById c id select) w).

(** *** getProducts *)

Definition limit_of (input : SearchParams) : float :=
  Num.or_else (Number (param "per_page" input)) 10.

Definition page_of (input : SearchParams) : float :=
  Num.or_else (Number (param "page" input)) 1.

Definition skip_of (input : SearchParams) : float :=
  ((page_of input - 1) * limit_of input)%float.

(** [search.sort?.split('.') ?? ['createdAt', 'desc']], destructured. *)
Definition sort_of (search : Search) : option string * option string :=
  destructure2 (match sort search with
                | Some s => Js.split "." s
                | None => ["createdAt"; "desc"]
                end).

(** [x?.split(sep) ?? []]. *)
Definition split_or_empty (sep : ascii) (x : option string) : list string :=
  match x with
  | Some s => Js.split sep s
  | None => []
  end.

Definition filter_of (search : Search) : list (string * json) :=
  let categoryIds := split_or_empty "." (categories search) in
  let subcategoryIds := split_or_empty "." (subcategories search) in
  let '(minPrice, maxPrice) := destructure2 (split_or_empty "-" (price_range search)) in
  let filter := [] in
  let filter :=
    if (0 <? Z.of_nat (length categoryIds))%Z
    then set_prop "categoryId" (JObj [("$in", JArr (map JStr categoryIds))]) filter
    else filter in
  let filter :=
    if (0 <? Z.of_nat (length subcategoryIds))%Z
    then set_prop "subcategoryId" (JObj [("$in", JArr (map JStr subcategoryIds))]) filter
    else filter in
  let filter :=
    match minPrice with
    | Some lo =>
        set_prop "price" (JObj (set_prop "$gte" (JStr lo) (spread (get_prop "price" filter))))
                 filter
    | None => filter
    end in
  let filter :=
    match maxPrice with
    | Some hi =>
        set_prop "price" (JObj (set_prop "$lte" (JStr hi) (spread (get_prop "price" filter))))
                 filter
    | None => filter
    end in
  filter.

(** The computed key [[sortField as string]]. *)
Definition sort_key (sortField : option string) : string :=
  match sortField with
  | Some f => f
  | None => "undefined"
  end.

Definition sort_direction (sortOrder : option string) : float :=
  match sortOrder with
  | Some o => if String.eqb o "asc" then 1%float else (-1)%float
  | None => (-1)%float
  end.

Definition sort_stage (search : Search) : json :=
  let '(sortField, sortOrder) := sort_of search in
  JObj [("$sort", JObj [(sort_key sortField, JNum (sort_direction sortOrder))])].

Definition products_pipeline (input : SearchParams) (search : Search) : list json :=
  [ JObj [("$match", JObj (filter_of search))];
    JObj [("$lookup", JObj [("from", JStr "categories");
                            ("localField", JStr "categoryId");
                            ("foreignField", JStr "_id");
                            ("as", JStr "category")])];
    JObj [("$unwind", JStr "$category")];
    JObj [("$lookup", JObj [("from", JStr "subcategories");
                            ("localField", JStr "subcategoryId");
                            ("foreignField", JStr "_id");
                            ("as", JStr "subcategory")])];
    JObj [("$unwind", JStr "$subcategory")];
    JObj [("$project", JObj [("id", JStr "$_id");
                             ("name", JNum 1);
                             ("description", JNum 1);
                             ("images", JNum 1);
                             ("category", JStr "$category.name");
                             ("subcategory", JStr "$subcategory.name");
                             ("price", JNum 1);
                             ("inventory", JNum 1);
                             ("createdAt", JNum 1);
                             ("updatedAt", JNum 1)])];
    sort_stage search;
    JObj [("$skip", JNum (skip_of input))];
    JObj [("$limit", JNum (limit_of input))] ].

Definition page_result (data : list json) (pageCount : float) : json :=
  JObj [("data", JArr data); ("pageCount", JNum pageCount)].

(** The [try] statement of [getProducts]. *)
Definition getProducts_try (input : SearchParams) : M json :=
  try_catch
    (let limit := limit_of input in
     search ← lift (schema_parse env input);
     products ← db_aggregate Products (products_pipeline input search);
     total ← db_countDocuments Products (JObj (filter_of search));
     let pageCount := Num.ceil (total / limit) in
     mret (page_result products pageCount))
    (fun _ => mret (page_result [] 0)).

Definition getProducts (input : SearchParams) : M json :=
  _ ← lift (connectDb env);
  _ ← lift (noStore env);
  getProducts_try input.

(** *** The readers behind the plain cache *)

Definition getFeaturedProducts_cache : CacheCall :=
  {| callback :=
       docs ← db_find Products (JObj []) (Some 8%Z) (Some created_desc) false;
       mret (JArr docs);
     keyParts := ["featured-products"];
     revalidate := 3600;
     tags := ["featured-products"] |}.

Definition getFeaturedProducts : M json :=
  _ ← lift (connectDb env);
  unstable_cache getFeaturedProducts_cache.

Definition getProductCountByCategory_cache (categoryId : string) : CacheCall :=
  {| callback :=
       n ← db_countDocuments Products (JObj [("category.id", JStr categoryId)]);
       mret (JNum n);
     keyParts := ["product-count-" +:+ categoryId];
     revalidate := 3600;
     tags := ["product-count-" +:+ categoryId] |}.

Definition getProductCountByCategory (categoryId : string) : M json :=
  _ ← lift (connectDb env);
  unstable_cache (getProductCountByCategory_cache categoryId).

Definition categories_pipeline : list json :=
  [ JObj [("$project", JObj [("_id", JNum 0);
                             ("id", JNum 1);
                             ("name", JNum 1);
                             ("slug", JNum 1);
                             ("description", JNum 1);
                             ("image", JNum 1)])];
    JObj [("$sort", JObj [("name", JNum (-1))])] ].

Definition getCategories_cache : CacheCall :=
  {| callback :=
       docs ← db_aggregate Categories categories_pipeline;
       mret (JArr docs);
     keyParts := ["categories"];
     revalidate := 3600;
     tags := ["categories"] |}.

Definition getCategories : M json :=
  _ ← lift (connectDb env);
  unstable_cache getCategories_cache.

Definition getProductById_cache (productId : string) : CacheCall :=
  {| callback := db_findById Products productId None;
     keyParts := ["product-" +:+ productId];
     revalidate := 3600;
     tags := ["product-" +:+ productId] |}.

Definition getProductById (productId : string) : M json :=
  _ ← lift (connectDb env);
  unstable_cache (getProductById_cache productId).

Definition related_filter (product : json) : json :=
  JObj [("$or", JArr [ JObj [("categoryId", member "categoryId" product)];
                       JObj [("subCategoryId", member "subCategoryId" product)] ])].

Definition getRelatedProducts_cache (productId : string) : CacheCall :=
  {| callback :=
       product ← db_findById Products productId (Some "categoryId subCategoryId");
       if negb (to_boolean product) then mret (JArr [])
       else
         docs ← db_find Products (related_filter product) (Some 4%Z) (Some created_desc) false;
         mret (JArr docs);
     keyParts := ["related-products-" +:+ productId];
     revalidate := 3600;
     tags := ["related-products-" +:+ productId] |}.

Definition getRelatedProducts (productId : string) : M json :=
  _ ← lift (connectDb env);
  unstable_cache (getRelatedProducts_cache productId).

(** *** The readers returning an envelope *)

Definition matchConditions_of (category : string) (searchParams : SearchParams)
  : list (string * json) :=
  let sex := param "sex" searchParams in
  let subcategory := param "subcategory" searchParams in
  let gte := param "gte" searchParams in
  let lte := param "lte" searchParams in
  let matchConditions := [("category.slug", JStr category)] in
  let matchConditions :=
    if param_truthy sex then set_prop "sex" (param_to_json sex) matchConditions
    else matchConditions in
  let matchConditions :=
    if param_truthy subcategory
    then set_prop "subCategory.slug" (param_to_json subcategory) matchConditions
    else matchConditions in
  if param_truthy gte || param_truthy lte then
    let price := [] in
    let price :=
      if param_truthy gte
      then set_prop "$gte" (JNum (Num.parseFloat (param_to_string gte))) price
      else price in
    let price :=
      if param_truthy lte
      then set_prop "$lte" (JNum (Num.parseFloat (param_to_string lte))) price
      else price in
    set_prop "price" (JObj price) matchConditions
  else matchConditions.

Definition cacheKey_of (category : string) (searchParams : SearchParams) : string :=
  "products-" +:+ category
    +:+ "-" +:+ or_empty (param "sex" searchParams)
    +:+ "-" +:+ or_empty (param "subcategory" searchParams)
    +:+ "-" +:+ or_empty (param "gte" searchParams)
    +:+ "-" +:+ or_empty (param "lte" searchParams).

Definition category_tags (category : string) (searchParams : SearchParams) : list string :=
  ("products-" +:+ category)
    :: map (fun kv => "products-" +:+ category +:+ "-" +:+ fst kv
                        +:+ "-" +:+ param_to_string (snd kv))
           (Object_entries searchParams).

Definition getProductsByCategory_cache (category : string) (searchParams : SearchParams)
  : CacheCall :=
  {| callback :=
       try_catch
         (products ← db_find Products (JObj (matchConditions_of category searchParams))
                             None (Some created_desc) true;
          mret (ApiResponse_success
                  ("Successfully fetched products for category: " +:+ category)
                  (JArr products)))
         (fun err => mret (ApiResponse_failure (message err)));
     keyParts := [cacheKey_of category searchParams];
     revalidate := 3600;
     tags := category_tags category searchParams |}.

Definition getProductsByCategory (category : string) (searchParams : SearchParams) : M json :=
  _ ← lift (connectDb env);
  unstable_cache (getProductsByCategory_cache category searchParams).

Definition getSubCategoriesOfCategory_cache (slug : string) : CacheCall :=
  {| callback :=
       try_catch
         (found ← db_find Subcategories (JObj [("category.slug", JStr slug)])
                          None None true;
          mret (ApiResponse_success "Fetched subcategories!" (JArr found)))
         (fun err => mret (ApiResponse_failure (message err)));
     keyParts := ["subcategories"];
     revalidate := 3600;
     tags := ["subcategories"] |}.

Definition getSubCategoriesOfCategory (slug : string) : M json :=
  _ ← lift (connectDb env);
  unstable_cache (getSubCategoriesOfCategory_cache slug).

(** The seven cache-wrapped readers with their arguments. *)
Variant Reader :=
| FeaturedProducts
| ProductCountByCategory (categoryId : string)
| AllCategories
| ProductById (productId : string)
| RelatedProducts (productId : string)
| ProductsByCategory (category : string) (searchParams : SearchParams)
| SubCategoriesOfCategory (slug : string).

Definition cache_call (r : Reader) : CacheCall :=
  match r with
  | FeaturedProducts => getFeaturedProducts_cache
  | ProductCountByCategory categoryId => getProductCountByCategory_cache categoryId
  | AllCategories => getCategories_cache
  | ProductById productId => getProductById_cache productId
  | RelatedProducts productId => getRelatedProducts_cache productId
  | ProductsByCategory category searchParams =>
      getProductsByCategory_cache category searchParams
  | SubCategoriesOfCategory slug => getSubCategoriesOfCategory_cache slug
  end.

Definition read (r : Reader) : M json :=
  match r with
  | FeaturedProducts => getFeaturedProducts
  | ProductCountByCategory categoryId => getProductCountByCategory categoryId
  | AllCategories => getCategories
  | ProductById productId => getProductById productId
  | RelatedProducts productId => getRelatedProducts productId
  | ProductsByCategory category searchParams => getProductsByCategory category searchParams
  | SubCategoriesOfCategory slug => getSubCategoriesOfCategory slug
  end.

End Readers.

(** ** An in-memory driver *)

(** Modelled from the spec: the database driver is not part of the
    sources.  The spec names the calls made on it ([find],
    [countDocuments], [aggregate] with [$match], [$lookup], [$unwind],
    [$project], [$sort], [$skip], [$limit]) and leaves their meaning to
    the database.  The module below gives these calls the meaning the
    database documents, over collections held in memory.  It is one
    possible [Env]; the general results hold for every environment. *)

Module Memory.

Record Database := {
  product_docs : list json;
  category_docs : list json;
  subcategory_docs : list json;
}.

Definition collection (db : Database) (c : Collection) : list json :=
  match c with
  | Products => product_docs db
  | Categories => category_docs db
  | Subcategories => subcategory_docs db
  end.

Definition collection_named (db : Database) (name : string) : list json :=
  if String.eqb name "products" then product_docs db
  else if String.eqb name "categories" then category_docs db
  else if String.eqb name "subcategories" then subcategory_docs db
  else [].

Fixpoint json_eqb (a b : json) {struct a} : bool :=
  match a, b with
  | JUndefined, JUndefined => true
  | JNull, JNull => true
  | JBool x, JBool y => Bool.eqb x y
  | JNum x, JNum y => (x =? y)%float
  | JStr x, JStr y => String.eqb x y
  | JArr xs, JArr ys =>
      (fix all2 (xs ys : list json) {struct xs} : bool :=
         match xs, ys with
         | [], [] => true
         | x :: xs', y :: ys' => json_eqb x y && all2 xs' ys'
         | _, _ => false
         end) xs ys
  | JObj ps, JObj qs =>
      (fix all2 (ps qs : list (string * json)) {struct ps} : bool :=
         match ps, qs with
         | [], [] => true
         | (k, x) :: ps', (k', y) :: qs' => String.eqb k k' && json_eqb x y && all2 ps' qs'
         | _, _ => false
         end) ps qs
  | _, _ => false
  end.

(** Position of a value's type in the comparison order of the store. *)
Definition type_rank (v : json) : Z :=
  match v with
  | JUndefined => 0
  | JNull => 1
  | JNum _ => 2
  | JStr _ => 3
  | JObj _ => 4
  | JArr _ => 5
  | JBool _ => 6
  end.

Definition json_leb (a b : json) : bool :=
  match a, b with
  | JNum x, JNum y => (x <=? y)%float
  | JStr x, JStr y => String.leb x y
  | JBool x, JBool y => implb x y
  | _, _ => (type_rank a <=? type_rank b)%Z
  end.

(** The value at a dotted path. *)
Fixpoint path_get (path : list string) (v : json) : json :=
  match path with
  | [] => v
  | k :: rest => path_get rest (member k v)
  end.

Definition field (name : string) (doc : json) : json :=
  path_get (Js.split "." name) doc.

(** A condition on one field: an operator object or a value to equal.
    Range operators only relate values of the same type. *)
Definition field_cond (v : json) (cond : json) : bool :=
  match cond with
  | JObj ops =>
      forallb (fun op =>
                 let '(name, arg) := op in
                 if String.eqb name "$in"
                 then match arg with
                      | JArr alts => existsb (json_eqb v) alts
                      | _ => false
                      end
                 else if String.eqb name "$gte"
                 then (type_rank v =? type_rank arg)%Z && json_leb arg v
                 else if String.eqb name "$lte"
                 then (type_rank v =? type_rank arg)%Z && json_leb v arg
                 else false)
              ops
  | _ => json_eqb v cond
  end.

(** Whether a document satisfies a query filter. *)
Fixpoint matches (filter : json) (doc : json) {struct filter} : bool :=
  match filter with
  | JObj props =>
      (fix every (props : list (string * json)) : bool :=
         match props with
         | [] => true
         | (k, cond) :: rest =>
             (if String.eqb k "$or"
              then match cond with
                   | JArr alts =>
                       (fix some (alts : list json) : bool :=
                          match alts with
                          | [] => false
                          | a :: alts' => matches a doc || some alts'
                          end) alts
                   | _ => false
                   end
              else field_cond (field k doc) cond)
             && every rest
         end) props
  | _ => false
  end.

Definition doc_props (doc : json) : list (string * json) := spread doc.

Fixpoint insert_by (le : json -> json -> bool) (key : json -> json)
    (d : json) (sorted : list json) : list json :=
  match sorted with
  | [] => [d]
  | x :: rest =>
      if le (key d) (key x) then d :: sorted
      else x :: insert_by le key d rest
  end.

(** Modelled from the spec: the [$sort] stage on one field; [direction]
    is [1] (ascending) or [-1] (descending). *)
Definition sort_docs (name : string) (direction : float) (docs : list json) : list json :=
  let le := if (direction <? 0)%float then (fun a b => json_leb b a) else json_leb in
  foldr (fun d acc => insert_by le (field name) d acc) [] docs.

(** The integer a number denotes, when it denotes one. *)
Definition integer_of (x : float) : option Z :=
  match Prim2SF x with
  | S754_zero _ => Some 0%Z
  | S754_finite s m e =>
      let mag :=
        if (0 <=? e)%Z then Some (Zpos m * 2 ^ e)%Z
        else if (Zpos m mod 2 ^ (- e) =? 0)%Z then Some (Zpos m / 2 ^ (- e))%Z
        else None in
      match mag with
      | Some z => Some (if s then - z else z)%Z
      | None => None
      end
  | _ => None
  end.

Definition project_doc (spec : list (string * json)) (doc : json) : json :=
  let keep_id :=
    match get_prop "_id" spec with
    | JNum x => negb (is_zero x)
    | _ => true
    end in
  let base :=
    if keep_id then
      match member "_id" doc with
      | JUndefined => []
      | v => [("_id", v)]
      end
    else [] in
  JObj (fold_left
          (fun acc kv =>
             let '(k, how) := kv in
             if String.eqb k "_id" then acc
             else match how with
                  | JStr path =>
                      match path with
                      | String "$" p =>
                          match field p doc with
                          | JUndefined => acc
                          | v => set_prop k v acc
                          end
                      | _ => set_prop k how acc
                      end
                  | _ =>
                      match member k doc with
                      | JUndefined => acc
                      | v => set_prop k v acc
                      end
                  end)
          spec base).

Definition bad_stage : Error := {| message := "invalid pipeline stage" |}.

(** Modelled from the spec: one stage of an aggregation pipeline. *)
Definition run_stage (db : Database) (stage : json) (docs : list json)
  : outcome (list json) :=
  match stage with
  | JObj [(op, arg)] =>
      if String.eqb op "$match" then Returned (List.filter (matches arg) docs)
      else if String.eqb op "$lookup" then
        match member "from" arg, member "localField" arg,
              member "foreignField" arg, member "as" arg with
        | JStr from, JStr localField, JStr foreignField, JStr as_ =>
            Returned
              (map (fun d =>
                      JObj (set_prop as_
                              (JArr (List.filter
                                       (fun x => json_eqb (field foreignField x)
                                                          (field localField d))
                                       (collection_named db from)))
                              (doc_props d)))
                   docs)
        | _, _, _, _ => Thrown bad_stage
        end
      else if String.eqb op "$unwind" then
        match arg with
        | JStr (String "$" name) =>
            Returned
              (concat (map (fun d =>
                              match member name d with
                              | JArr items =>
                                  map (fun it => JObj (set_prop name it (doc_props d))) items
                              | JUndefined | JNull => []
                              | _ => [d]
                              end)
                           docs))
        | _ => Thrown bad_stage
        end
      else if String.eqb op "$project" then
        match arg with
        | JObj spec => Returned (map (project_doc spec) docs)
        | _ => Thrown bad_stage
        end
      else if String.eqb op "$sort" then
        match arg with
        | JObj [(name, JNum direction)] => Returned (sort_docs name direction docs)
        | _ => Thrown bad_stage
        end
      else if String.eqb op "$skip" then
        match arg with
        | JNum x =>
            match integer_of x with
            | Some n => if (0 <=? n)%Z then Returned (drop (Z.to_nat n) docs)
                        else Thrown bad_stage
            | None => Thrown bad_stage
            end
        | _ => Thrown bad_stage
        end
      else if String.eqb op "$limit" then
        match arg with
        | JNum x =>
            match integer_of x with
            | Some n => if (0 <? n)%Z then Returned (take (Z.to_nat n) docs)
                        else Thrown bad_stage
            | None => Thrown bad_stage
            end
        | _ => Thrown bad_stage
        end
      else Thrown bad_stage
  | _ => Thrown bad_stage
  end.

Fixpoint run_pipeline (db : Database) (pipeline : list json) (docs : list json)
  : outcome (list json) :=
  match pipeline with
  | [] => Returned docs
  | stage :: rest =>
      match run_stage db stage docs with
      | Returned docs' => run_pipeline db rest docs'
      | Thrown e => Thrown e
      end
  end.

(** Modelled from the spec: [aggregate], [countDocuments], [find] and
    [findById] of the driver. *)
Definition mem_aggregate (db : Database) (c : Collection) (pipeline : list json)
  : outcome (list json) :=
  run_pipeline db pipeline (collection db c).

Definition mem_countDocuments (db : Database) (c : Collection) (filter : json)
  : outcome float :=
  Returned (Num.of_Z (Z.of_nat (length (List.filter (matches filter) (collection db c))))).

Definition mem_find (db : Database) (c : Collection) (filter : json)
    (limit : option Z) (order : option json) (lean : bool) : outcome (list json) :=
  let found := List.filter (matches filter) (collection db c) in
  let sorted :=
    match order with
    | Some (JObj [(name, JNum direction)]) => sort_docs name direction found
    | _ => found
    end in
  Returned (match limit with
            | Some n => take (Z.to_nat n) sorted
            | None => sorted
            end).

Definition mem_findById (db : Database) (c : Collection) (id : string)
    (select : option string) : outcome json :=
  match List.filter (fun d => json_eqb (member "_id" d) (JStr id)) (collection db c) with
  | d :: _ =>
      Returned (match select with
                | Some fields =>
                    project_doc (map (fun f => (f, JNum 1)) (Js.split " " fields)) d
                | None => d
                end)
  | [] => Returned JNull
  end.

(** A validator in the manner of the schema: each field the reader uses
    must be a string when present. *)
Definition optional_string (v : ParamValue) : outcome (option string) :=
  match v with
  | PUndefined => Returned None
  | PString s => Returned (Some s)
  | PStrings _ => Thrown {| message := "Expected string, received array" |}
  end.

Definition mem_parse (input : SearchParams) : outcome Search :=
  match optional_string (param "sort" input),
        optional_string (param "categories" input),
        optional_string (param "subcategories" input),
        optional_string (param "price_range" input) with
  | Returned a, Returned b, Returned c, Returned d =>
      Returned {| sort := a; categories := b; subcategories := c; price_range := d |}
  | Thrown e, _, _, _ | _, Thrown e, _, _ | _, _, Thrown e, _ | _, _, _, Thrown e =>
      Thrown e
  end.

Definition env_of (db : Database) : Env :=
  {| connectDb := Returned tt;
     noStore := Returned tt;
     schema_parse := mem_parse;
     aggregate := mem_aggregate db;
     countDocuments := mem_countDocuments db;
     find := mem_find db;
     findById := mem_findById db |}.

(** An environment whose database cannot be reached. *)
Definition unreachable : Error := {| message := "connection refused" |}.

Definition env_down : Env :=
  {| connectDb := Returned tt;
     noStore := Returned tt;
     schema_parse := mem_parse;
     aggregate := fun _ _ => Thrown unreachable;
     countDocuments := fun _ _ => Thrown unreachable;
     find := fun _ _ _ _ _ => Thrown unreachable;
     findById := fun _ _ _ => Thrown unreachable |}.

Definition product (id name : string) (price : float) (created : float) : json :=
  JObj [("_id", JStr id); ("name", JStr name); ("price", JNum price);
        ("categoryId", JStr "c1"); ("subcategoryId", JStr "s1");
        ("createdAt", JNum created)].

(** Two products priced 20 and 10, stored in that order. *)
Definition shop : Database :=
  {| product_docs := [product "p20" "Boot" 20 1; product "p10" "Sandal" 10 2];
     category_docs := [JObj [("_id", JStr "c1"); ("name", JStr "Shoes");
                             ("slug", JStr "shoes")]];
     subcategory_docs := [JObj [("_id", JStr "s1"); ("name", JStr "Summer");
                                ("slug", JStr "summer");
                                ("category", JObj [("slug", JStr "shoes")])]] |}.

Definition cold : World := {| store := ∅; issued := []; clock := 0 |}.

End Memory.

(** ** Inputs and predicates used in the statements *)

(** Validated parameters carrying only a price range. *)
Definition with_price_range (s : string) : Search :=
  {| sort := None; categories := None; subcategories := None; price_range := Some s |}.

(** Validated parameters carrying only a sort specification. *)
Definition with_sort (s : option string) : Search :=
  {| sort := s; categories := None; subcategories := None; price_range := None |}.

(** The two shapes of the envelope. *)
Definition is_envelope (v : json) : Prop :=
  (exists msg data, v = ApiResponse_success msg data)
  \/ (exists msg, v = ApiResponse_failure msg).

(** The two readers whose callback wraps its query in [try]/[catch]. *)
Definition returns_envelope (r : Reader) : bool :=
  match r with
  | ProductsByCategory _ _ | SubCategoriesOfCategory _ => true
  | _ => false
  end.

(** The queries a run added to the log. *)
Definition new_queries (before after : World) : list Query :=
  drop (length (issued before)) (issued after).

(** The example request of the listing page. *)
Definition page_request : SearchParams :=
  [("per_page", PString "2"); ("page", PString "1"); ("sort", PString "price.asc")].

(** Two products priced 10 and 20, the cheaper one being the older one,
    so that the default order (newest first) is not the order of prices. *)
Definition priced_pair : Memory.Database :=
  {| Memory.product_docs := [Memory.product "a10" "Clog" 10 1;
                             Memory.product "b20" "Pump" 20 2];
     Memory.category_docs := Memory.category_docs Memory.shop;
     Memory.subcategory_docs := Memory.subcategory_docs Memory.shop |}.

(** The same two products stored in the other order. *)
Definition priced_pair_reversed : Memory.Database :=
  {| Memory.product_docs := rev (Memory.product_docs priced_pair);
     Memory.category_docs := Memory.category_docs Memory.shop;
     Memory.subcategory_docs := Memory.subcategory_docs Memory.shop |}.

(** Three products priced 30, 10 and 20, stored in that order. *)
Definition priced_three : Memory.Database :=
  {| Memory.product_docs := Memory.product "c30" "Mule" 30 3
                            :: Memory.product_docs priced_pair;
     Memory.category_docs := Memory.category_docs Memory.shop;
     Memory.subcategory_docs := Memory.subcategory_docs Memory.shop |}.

(** The prices of the documents under [data] of a returned page. *)
Definition data_prices (result : outcome json) : list json :=
  match result with
  | Returned page =>
      match member "data" page with
      | JArr docs => map (member "price") docs
      | _ => []
      end
  | Thrown _ => []
  end.

(** The [pageCount] of a returned page. *)
Definition page_count (result : outcome json) : json :=
  match result with
  | Returned page => member "pageCount" page
  | Thrown _ => JUndefined
  end.

(** The projection [getProducts] returns for a product of the shop. *)
Definition product_view (id name : string) (price created : float) : json :=
  JObj [("_id", JStr id); ("id", JStr id); ("name", JStr name);
        ("category", JStr "Shoes"); ("subcategory", JStr "Summer");
        ("price", JNum price); ("createdAt", JNum created)].

(** What the shop's featured products are: newest first. *)
Definition featured_of_shop : json :=
  JArr [Memory.product "p10" "Sandal" 10 2; Memory.product "p20" "Boot" 20 1].

(** The envelope listing the one subcategory of the shop's shoes. *)
Definition subcategories_of_shoes : json :=
  ApiResponse_success "Fetched subcategories!"
    (JArr [JObj [("_id", JStr "s1"); ("name", JStr "Summer"); ("slug", JStr "summer");
                 ("category", JObj [("slug", JStr "shoes")])]]).

(** ** Inputs used in the further properties *)

(** A parameter that is absent, or a string without a dash. *)
Definition dashless (v : ParamValue) : bool :=
  match v with
  | PUndefined => true
  | PString s => negb (Js.occurs "-" s)
  | PStrings _ => false
  end.

(** The four parameters [getProductsByCategory] reads. *)
Definition category_params : list string := ["sex"; "subcategory"; "gte"; "lte"].

(** An environment whose connection bootstrap fails. *)
Definition env_offline : Env :=
  {| connectDb := Thrown Memory.unreachable;
     noStore := Returned tt;
     schema_parse := Memory.mem_parse;
     aggregate := Memory.mem_aggregate Memory.shop;
     countDocuments := Memory.mem_countDocuments Memory.shop;
     find := Memory.mem_find Memory.shop;
     findById := Memory.mem_findById Memory.shop |}.

(** ** Proof steps for running the monad *)

Ltac run_m :=
  unfold mbind, M_bind, mret, M_ret, lift, try_catch,
    db_find, db_findById, db_aggregate, db_countDocuments in *;
  cbn beta iota in *.

Ltac case_outcomes :=
  repeat match goal with
         | |- context [match ?x with Returned _ => _ | Thrown _ => _ end] =>
             destruct x eqn:?
         | |- context [if ?b then _ else _] => destruct b eqn:?
         | |- context [let (_, _) := ?p in _] => destruct p eqn:?
         end.

(** ** The conversions on examples *)

Example parseFloat_50 : Num.parseFloat "50" = 50%float.
Proof. reflexivity. Qed.

Example parseFloat_prefix : Num.parseFloat " 12.5e1px" = 125%float.
Proof. reflexivity. Qed.

Example number_non_numeric : is_nan (Num.StringToNumber "12px") = true.
Proof. reflexivity. Qed.

Example number_hex : Num.StringToNumber "0x1F" = 31%float.
Proof. reflexivity. Qed.

Example number_blank : Num.StringToNumber "  " = 0%float.
Proof. reflexivity. Qed.

Example ceil_half : Num.ceil 1.5 = 2%float /\ Num.ceil (-0.5) = (-0)%float.
Proof. split; reflexivity. Qed.

Example entries_order :
  map fst (Object_entries [("sex", PString "men"); ("10", PString "x");
                           ("2", PString "y"); ("01", PString "z")])
  = ["2"; "10"; "sex"; "01"].
Proof. reflexivity. Qed.

Example tags_order :
  category_tags "shoes" [("sex", PString "men"); ("7", PString "x")]
  = ["products-shoes"; "products-shoes-7-x"; "products-shoes-sex-men"].
Proof. reflexivity. Qed.

(** ** The entries of an object *)

(** Without array-index keys the entries come in the order they were added. *)
Lemma Object_entries_plain (o : SearchParams) :
  Forall (fun kv => array_index (fst kv) = None) o -> Object_entries o = o.
Proof.
  unfold Object_entries. induction 1 as [|kv rest Hkv Hrest IH]; [reflexivity|].
  cbn [fold_right List.filter]. rewrite Hkv.
  destruct (fold_right _ [] rest) as [|x xs] eqn:Hfold.
  - cbn [map app] in *. rewrite IH. reflexivity.
  - cbn [map app] in *. exfalso.
    apply (f_equal (@length _)) in IH. cbn [length] in IH.
    rewrite length_app in IH.
    assert (Hall : List.filter (fun kv0 => match array_index (fst kv0) with
                                           | Some _ => false
                                           | None => true
                                           end) rest = rest).
    { clear -Hrest. induction Hrest as [|y ys Hy Hys IHys]; [reflexivity|].
      cbn [List.filter]. rewrite Hy, IHys. reflexivity. }
    rewrite Hall in IH. lia.
Qed.

(** ** Splitting *)

Lemma split_nonempty sep s : Js.split sep s <> [].
Proof.
  destruct s as [|c rest]; simpl; [discriminate|].
  destruct (Ascii.eqb c sep); [discriminate|].
  destruct (Js.split sep rest); discriminate.
Qed.

Lemma split_length_pos sep s :
  (0 <? Z.of_nat (length (Js.split sep s)))%Z = true.
Proof.
  pose proof (split_nonempty sep s) as H.
  destruct (Js.split sep s); [congruence|]. reflexivity.
Qed.

Lemma split_without sep s :
  Js.occurs sep s = false -> Js.split sep s = [s].
Proof.
  induction s as [|c rest IH]; simpl; [reflexivity|].
  intros H. apply orb_false_iff in H as [Hc Hrest].
  rewrite Hc, (IH Hrest). reflexivity.
Qed.

Lemma split_at_first sep a b :
  Js.occurs sep a = false ->
  Js.split sep (a +:+ String sep EmptyString +:+ b) = a :: Js.split sep b.
Proof.
  change (String sep EmptyString +:+ b) with (String sep b).
  induction a as [|c rest IH]; simpl; intros H.
  - rewrite Ascii.eqb_refl. reflexivity.
  - apply orb_false_iff in H as [Hc Hrest].
    rewrite Hc, (IH Hrest). reflexivity.
Qed.

Lemma split_pair sep a b :
  Js.occurs sep a = false -> Js.occurs sep b = false ->
  Js.split sep (a +:+ String sep EmptyString +:+ b) = [a; b].
Proof.
  intros Ha Hb. rewrite (split_at_first _ _ _ Ha), (split_without _ _ Hb). reflexivity.
Qed.

(** ** The price clause of the filter *)

(** The [$in] clauses never touch the [price] property. *)
Lemma filter_price_clause search :
  get_prop "price" (filter_of search) =
  match destructure2 (split_or_empty "-" (price_range search)) with
  | (Some lo, Some hi) => JObj [("$gte", JStr lo); ("$lte", JStr hi)]
  | (Some lo, None) => JObj [("$gte", JStr lo)]
  | (None, Some hi) => JObj [("$lte", JStr hi)]
  | (None, None) => JUndefined
  end.
Proof.
  unfold filter_of.
  destruct (destructure2 (split_or_empty "-" (price_range search))) as [lo hi].
  destruct (categories search) as [c|], (subcategories search) as [sc|];
    unfold split_or_empty; rewrite ?split_length_pos;
    destruct lo, hi; reflexivity.
Qed.

(** ** Running the readers *)

(** Every reader connects first and then goes through the cache. *)
Lemma read_connects env r :
  read env r = (_ ← lift (connectDb env); unstable_cache (cache_call env r)).
Proof. destruct r; reflexivity. Qed.

Lemma read_connected env r w :
  connectDb env = Returned tt ->
  read env r w = unstable_cache (cache_call env r) w.
Proof. intros H. rewrite read_connects. run_m. rewrite H. reflexivity. Qed.

Lemma read_disconnected env r w e :
  connectDb env = Thrown e ->
  read env r w = (Thrown e, w).
Proof. intros H. rewrite read_connects. run_m. rewrite H. reflexivity. Qed.

Lemma read_returned_connected env r w v w1 :
  read env r w = (Returned v, w1) -> connectDb env = Returned tt.
Proof.
  rewrite read_connects. run_m.
  destruct (connectDb env) as [[]|e]; [reflexivity|discriminate].
Qed.

Lemma unstable_cache_miss c w :
  fresh_entry c w = None ->
  unstable_cache c w =
  match callback c w with
  | (Returned v, w') => (Returned v, remember c v w')
  | (Thrown e, w') => (Thrown e, w')
  end.
Proof. intros H. unfold unstable_cache. rewrite H. reflexivity. Qed.

Lemma unstable_cache_hit c w e :
  fresh_entry c w = Some e ->
  unstable_cache c w = (Returned (cached e), w).
Proof. intros H. unfold unstable_cache. rewrite H. reflexivity. Qed.

(** A call never fails on its own account: it returns, or its callback threw. *)
Lemma unstable_cache_throws c w e w' :
  unstable_cache c w = (Thrown e, w') -> callback c w = (Thrown e, w').
Proof.
  unfold unstable_cache. destruct (fresh_entry c w); [discriminate|].
  destruct (callback c w) as [[v|e0] w0]; [discriminate|]. congruence.
Qed.

(** The queries of the driver leave the store and the clock alone. *)
Lemma callback_quiet env r w :
  store (snd (callback (cache_call env r) w)) = store w
  /\ clock (snd (callback (cache_call env r) w)) = clock w.
Proof.
  destruct r; cbn [cache_call callback getFeaturedProducts_cache
    getProductCountByCategory_cache getCategories_cache getProductById_cache
    getRelatedProducts_cache getProductsByCategory_cache
    getSubCategoriesOfCategory_cache]; run_m; case_outcomes; split; reflexivity.
Qed.

(** Within the period after a value was stored, any call with the same key
    and the same period is served from the store. *)
Lemma fresh_after_remember c c' v w t :
  keyParts c' = keyParts c ->
  (t < clock w + revalidate c')%Z ->
  fresh_entry c' (at_time t (remember c v w))
  = Some {| cached := v; stored_at := clock w; entry_tags := tags c |}.
Proof.
  intros Hk Ht. unfold fresh_entry, at_time, remember. cbn [store clock].
  rewrite Hk, lookup_insert_eq. cbn [stored_at].
  destruct (Z.ltb_spec t (clock w + revalidate c')); [reflexivity|lia].
Qed.

Lemma revalidate_3600 env r : revalidate (cache_call env r) = 3600%Z.
Proof. destruct r; reflexivity. Qed.

(** A miss that returns is followed, within the period, by hits under the
    same key: the stored value comes back and the world is unchanged. *)
Lemma hit_after_miss env r r' w v w1 t :
  fresh_entry (cache_call env r) w = None ->
  read env r w = (Returned v, w1) ->
  keyParts (cache_call env r') = keyParts (cache_call env r) ->
  (t < clock w + 3600)%Z ->
  read env r' (at_time t w1) = (Returned v, at_time t w1).
Proof.
  intros Hmiss Hrun Hkey Ht.
  pose proof (read_returned_connected _ _ _ _ _ Hrun) as Hc.
  rewrite (read_connected _ _ _ Hc) in Hrun.
  rewrite (unstable_cache_miss _ _ Hmiss) in Hrun.
  pose proof (callback_quiet env r w) as [_ Hclock].
  destruct (callback (cache_call env r) w) as [[v0|e0] w0] eqn:Hcb; [|discriminate].
  injection Hrun as <- <-. cbn [snd] in Hclock.
  rewrite (read_connected _ _ _ Hc).
  rewrite (unstable_cache_hit _ _
             {| cached := v0; stored_at := clock w0;
                entry_tags := tags (cache_call env r) |}); [reflexivity|].
  apply fresh_after_remember; [exact Hkey|].
  rewrite revalidate_3600, Hclock. exact Ht.
Qed.

(** ** Envelopes and propagation *)

Lemma new_queries_one w q : new_queries w (record_query q w) = [q].
Proof. unfold new_queries, record_query. cbn [issued]. apply drop_app_length. Qed.

Lemma new_queries_two w q1 q2 :
  new_queries w (record_query q2 (record_query q1 w)) = [q1; q2].
Proof.
  unfold new_queries, record_query. cbn [issued].
  rewrite <- app_assoc. apply drop_app_length.
Qed.

Lemma new_queries_remember w c v w' :
  new_queries w (remember c v w') = new_queries w w'.
Proof. reflexivity. Qed.

(** The callbacks of the two envelope readers never throw. *)
Lemma envelope_callback env r w :
  returns_envelope r = true ->
  exists v w', callback (cache_call env r) w = (Returned v, w') /\ is_envelope v.
Proof.
  destruct r; try discriminate; intros _;
    cbn [cache_call getProductsByCategory_cache getSubCategoriesOfCategory_cache callback];
    run_m.
  - destruct (find env Products _ None (Some created_desc) true) as [docs|e];
      eexists _, _; (split; [reflexivity|]); [left|right]; eauto.
  - destruct (find env Subcategories _ None None true) as [docs|e];
      eexists _, _; (split; [reflexivity|]); [left|right]; eauto.
Qed.

(** ** The listing's [try] statement *)

Lemma getProducts_reaches_try env input w :
  connectDb env = Returned tt -> noStore env = Returned tt ->
  getProducts env input w = getProducts_try env input w.
Proof. intros H1 H2. unfold getProducts. run_m. rewrite H1, H2. reflexivity. Qed.

(** A failure of the connection bootstrap or of the marker precedes the
    [try] statement and is thrown to the caller. *)
Lemma getProducts_before_try env input w e :
  connectDb env = Thrown e
  \/ (connectDb env = Returned tt /\ noStore env = Thrown e) ->
  getProducts env input w = (Thrown e, w).
Proof.
  intros [H | [H1 H2]]; unfold getProducts; run_m.
  - rewrite H. reflexivity.
  - rewrite H1, H2. reflexivity.
Qed.

(** The [try] statement on each of its paths. *)
Lemma getProducts_try_paths env input w :
  getProducts_try env input w =
  match schema_parse env input with
  | Thrown _ => (Returned (page_result [] 0), w)
  | Returned search =>
      let q1 := QAggregate Products (products_pipeline input search) in
      let q2 := QCountDocuments Products (JObj (filter_of search)) in
      match aggregate env Products (products_pipeline input search) with
      | Thrown _ => (Returned (page_result [] 0), record_query q1 w)
      | Returned products =>
          match countDocuments env Products (JObj (filter_of search)) with
          | Thrown _ =>
              (Returned (page_result [] 0), record_query q2 (record_query q1 w))
          | Returned total =>
              (Returned (page_result products (Num.ceil (total / limit_of input))),
               record_query q2 (record_query q1 w))
          end
      end
  end.
Proof.
  unfold getProducts_try. run_m.
  destruct (schema_parse env input) as [search|e]; [|reflexivity].
  cbn beta iota.
  destruct (aggregate env Products _) as [products|e]; [|reflexivity].
  destruct (countDocuments env Products _) as [total|e]; reflexivity.
Qed.

(** The first query of [getProducts] is the aggregation over its pipeline. *)
Lemma getProducts_first_query env input w search :
  connectDb env = Returned tt -> noStore env = Returned tt ->
  schema_parse env input = Returned search ->
  new_queries w (snd (getProducts env input w)) !! 0%nat
  = Some (QAggregate Products (products_pipeline input search)).
Proof.
  intros H1 H2 E.
  rewrite (getProducts_reaches_try _ _ _ H1 H2), getProducts_try_paths, E. cbn zeta.
  destruct (aggregate env Products _); [|cbn [snd]; rewrite new_queries_one; reflexivity].
  destruct (countDocuments env Products _); cbn [snd];
    rewrite new_queries_two; reflexivity.
Qed.

(** ** Properties of the readers *)

(** C1, as amended.  In [getProducts] the price clause of the filter is
    taken from the components [price_range.split("-")] yields: a range
    "min-max" gives [$gte] from the min part and [$lte] from the max part,
    an empty part included (its clause then holds the empty string), and
    components after the second are ignored; a range without a dash gives
    [$gte] only; without a range the filter has no price clause. *)
Theorem price_range_clauses (search : Search) :
  (forall lo hi,
      Js.occurs "-" lo = false -> Js.occurs "-" hi = false ->
      price_range search = Some (lo +:+ "-" +:+ hi) ->
      get_prop "price" (filter_of search)
      = JObj [("$gte", JStr lo); ("$lte", JStr hi)])
  /\ (forall lo hi more,
         Js.occurs "-" lo = false -> Js.occurs "-" hi = false ->
         price_range search = Some (lo +:+ "-" +:+ hi +:+ "-" +:+ more) ->
         get_prop "price" (filter_of search)
         = JObj [("$gte", JStr lo); ("$lte", JStr hi)])
  /\ (forall s,
         Js.occurs "-" s = false ->
         price_range search = Some s ->
         get_prop "price" (filter_of search) = JObj [("$gte", JStr s)])
  /\ (price_range search = None ->
      get_prop "price" (filter_of search) = JUndefined
      /\ has_prop "price" (filter_of search) = false).
Proof.
  split; [|split; [|split]].
  - intros lo hi Hlo Hhi E. rewrite filter_price_clause, E. simpl.
    rewrite (split_pair _ _ _ Hlo Hhi). reflexivity.
  - intros lo hi more Hlo Hhi E. rewrite filter_price_clause, E. simpl.
    rewrite (split_at_first _ _ _ Hlo), (split_at_first _ _ _ Hhi). reflexivity.
  - intros s Hs E. rewrite filter_price_clause, E. simpl.
    rewrite (split_without _ _ Hs). reflexivity.
  - intros E. split.
    + rewrite filter_price_clause, E. reflexivity.
    + unfold filter_of. rewrite E. simpl.
      destruct (categories search), (subcategories search);
        unfold split_or_empty; rewrite ?split_length_pos; reflexivity.
Qed.

(** The range "10-20" gives both clauses. *)
Lemma price_range_clauses_witness :
  get_prop "price" (filter_of (with_price_range "10-20"))
  = JObj [("$gte", JStr "10"); ("$lte", JStr "20")].
Proof.
  apply (proj1 (price_range_clauses (with_price_range "10-20")) "10" "20");
    reflexivity.
Defined.

(** C1, as stated, fails on a range whose max part is absent: for "10-"
    the filter still carries a [$lte] clause, holding the empty string. *)
Lemma price_range_open_end_keeps_lte :
  get_prop "price" (filter_of (with_price_range "10-"))
  = JObj [("$gte", JStr "10"); ("$lte", JStr "")]
  /\ has_prop "$lte" (spread (get_prop "price" (filter_of (with_price_range "10-")))) = true
  /\ get_prop "price" (filter_of (with_price_range "-20"))
     = JObj [("$gte", JStr ""); ("$lte", JStr "20")].
Proof. split; [reflexivity | split; reflexivity]. Qed.

(** C2.  In [getProducts], for every set of search parameters, the skip
    is [(page - 1) * limit] and is the argument of the pipeline's [$skip]
    stage, [limit] being the argument of its [$limit] stage.  Here [page]
    is [Number(input.page)] and [limit] is [Number(input.per_page)]
    whenever that number is truthy; [page] is 1 and [limit] is 10 whenever
    the parameter is absent or converts to [NaN] (and also when it
    converts to zero). *)
Theorem skip_is_page_times_limit (input : SearchParams) :
  skip_of input = ((page_of input - 1) * limit_of input)%float
  /\ (forall search,
         products_pipeline input search !! 7%nat
         = Some (JObj [("$skip", JNum ((page_of input - 1) * limit_of input))])
         /\ products_pipeline input search !! 8%nat
            = Some (JObj [("$limit", JNum (limit_of input))]))
  /\ (param "page" input = PUndefined -> page_of input = 1%float)
  /\ (is_nan (Number (param "page" input)) = true -> page_of input = 1%float)
  /\ (param "per_page" input = PUndefined -> limit_of input = 10%float)
  /\ (is_nan (Number (param "per_page" input)) = true -> limit_of input = 10%float)
  /\ (forall env w search,
         connectDb env = Returned tt -> noStore env = Returned tt ->
         schema_parse env input = Returned search ->
         new_queries w (snd (getProducts env input w)) !! 0%nat
         = Some (QAggregate Products (products_pipeline input search)))
  /\ page_of input
     = (if Num.truthy (Number (param "page" input))
        then Number (param "page" input) else 1)%float
  /\ limit_of input
     = (if Num.truthy (Number (param "per_page" input))
        then Number (param "per_page" input) else 10)%float
  /\ skip_of input
     = (((if Num.truthy (Number (param "page" input))
          then Number (param "page" input) else 1) - 1)
        * (if Num.truthy (Number (param "per_page" input))
           then Number (param "per_page" input) else 10))%float
  /\ (forall env w search,
         connectDb env = Returned tt -> noStore env = Returned tt ->
         schema_parse env input = Returned search ->
         Num.truthy (Number (param "page" input)) = true ->
         Num.truthy (Number (param "per_page" input)) = true ->
         exists pipeline,
           new_queries w (snd (getProducts env input w)) !! 0%nat
           = Some (QAggregate Products pipeline)
           /\ pipeline !! 7%nat
              = Some (JObj [("$skip",
                             JNum ((Number (param "page" input) - 1)
                                   * Number (param "per_page" input)))])
           /\ pipeline !! 8%nat
              = Some (JObj [("$limit", JNum (Number (param "per_page" input)))])).
Proof.
  assert (Hnan : forall x d, is_nan x = true -> Num.or_else x d = d).
  { intros x d H. unfold Num.or_else, Num.truthy. rewrite H, orb_true_r. reflexivity. }
  split; [reflexivity|]. split; [intros search; split; reflexivity|].
  split; [intros E; unfold page_of; rewrite E; reflexivity|].
  split; [intros E; unfold page_of; apply Hnan, E|].
  split; [intros E; unfold limit_of; rewrite E; reflexivity|].
  split; [intros E; unfold limit_of; apply Hnan, E|].
  split; [intros env w search; apply getProducts_first_query|].
  split; [reflexivity|]. split; [reflexivity|]. split; [reflexivity|].
  intros env w search H1 H2 E Hp Hl.
  exists (products_pipeline input search).
  split; [exact (getProducts_first_query env input w search H1 H2 E)|].
  cbn [products_pipeline lookup list_lookup].
  unfold skip_of, page_of, limit_of, Num.or_else. rewrite Hp, Hl.
  split; reflexivity.
Qed.

(** Page "3" of size "4" skips 8 documents and asks for 4; a page that is
    not a number and a missing page size give page 1, limit 10, skip 0. *)
Lemma skip_is_page_times_limit_witness :
  (page_of [("page", PString "3"); ("per_page", PString "4")] = 3%float
   /\ limit_of [("page", PString "3"); ("per_page", PString "4")] = 4%float
   /\ skip_of [("page", PString "3"); ("per_page", PString "4")] = 8%float
   /\ exists pipeline,
        new_queries Memory.cold
          (snd (getProducts (Memory.env_of Memory.shop)
                  [("page", PString "3"); ("per_page", PString "4")] Memory.cold))
        !! 0%nat
        = Some (QAggregate Products pipeline)
        /\ pipeline !! 7%nat = Some (JObj [("$skip", JNum 8)])
        /\ pipeline !! 8%nat = Some (JObj [("$limit", JNum 4)]))
  /\ (page_of [("page", PString "two")] = 1%float
      /\ limit_of [("page", PString "two")] = 10%float
      /\ skip_of [("page", PString "two")] = 0%float).
Proof.
  split.
  - pose proof (skip_is_page_times_limit [("page", PString "3"); ("per_page", PString "4")])
      as (_ & _ & _ & _ & _ & _ & _ & Hpage & Hlimit & Hskip & Hrun).
    split; [rewrite Hpage; reflexivity|].
    split; [rewrite Hlimit; reflexivity|].
    split; [rewrite Hskip; reflexivity|].
    exact (Hrun (Memory.env_of Memory.shop) Memory.cold (with_sort None)
             eq_refl eq_refl eq_refl eq_refl eq_refl).
  - pose proof (skip_is_page_times_limit [("page", PString "two")])
      as (Hskip & _ & _ & Hpage & Hlimit & _).
    rewrite Hskip, (Hpage eq_refl), (Hlimit eq_refl).
    split; [reflexivity | split; reflexivity].
Defined.

(** C3.  The [try] statement of [getProducts] never throws: when the
    schema validation fails the result is exactly the empty page
    [{data: [], pageCount: 0}], and so it is when the aggregation or the
    count throws.  Hence, once [connectDb()] and [noStore()] have returned
    and the [try] statement is entered, [getProducts] returns the empty
    page on each of these failures and propagates none of them. *)
Theorem validation_failure_gives_empty_page env input w :
  (exists v w', getProducts_try env input w = (Returned v, w'))
  /\ (forall e, schema_parse env input = Thrown e ->
                getProducts_try env input w = (Returned (page_result [] 0), w))
  /\ (forall search e,
         schema_parse env input = Returned search ->
         aggregate env Products (products_pipeline input search) = Thrown e ->
         fst (getProducts_try env input w) = Returned (page_result [] 0))
  /\ (forall search products e,
         schema_parse env input = Returned search ->
         aggregate env Products (products_pipeline input search) = Returned products ->
         countDocuments env Products (JObj (filter_of search)) = Thrown e ->
         fst (getProducts_try env input w) = Returned (page_result [] 0))
  /\ (connectDb env = Returned tt -> noStore env = Returned tt ->
      (exists v w', getProducts env input w = (Returned v, w'))
      /\ (forall e, schema_parse env input = Thrown e ->
                    getProducts env input w = (Returned (page_result [] 0), w))
      /\ (forall e, fst (getProducts env input w) <> Thrown e)).
Proof.
  assert (Hret : exists v w', getProducts_try env input w = (Returned v, w')).
  { rewrite getProducts_try_paths.
    destruct (schema_parse env input); [|eauto].
    cbn zeta. destruct (aggregate env Products _); [|eauto].
    destruct (countDocuments env Products _); eauto. }
  split; [exact Hret|].
  split; [intros e E; rewrite getProducts_try_paths, E; reflexivity|].
  split; [intros s e E1 E2; rewrite getProducts_try_paths, E1; cbn zeta;
          rewrite E2; reflexivity|].
  split; [intros s p e E1 E2 E3; rewrite getProducts_try_paths, E1; cbn zeta;
          rewrite E2, E3; reflexivity|].
  intros H1 H2. rewrite (getProducts_reaches_try _ _ _ H1 H2).
  split; [exact Hret|].
  split; [intros e E; rewrite getProducts_try_paths, E; reflexivity|].
  intros e. destruct Hret as (v & w' & ->). discriminate.
Qed.

(** An array where the schema wants a string, and a database that is down:
    the empty page either way. *)
Lemma validation_failure_gives_empty_page_witness :
  getProducts (Memory.env_of Memory.shop) [("sort", PStrings ["price"; "name"])] Memory.cold
  = (Returned (page_result [] 0), Memory.cold)
  /\ fst (getProducts Memory.env_down [] Memory.cold) = Returned (page_result [] 0).
Proof.
  split.
  - pose proof (validation_failure_gives_empty_page (Memory.env_of Memory.shop)
                  [("sort", PStrings ["price"; "name"])] Memory.cold)
      as (_ & _ & _ & _ & H).
    destruct (H eq_refl eq_refl) as (_ & Hv & _).
    apply (Hv {| message := "Expected string, received array" |}). reflexivity.
  - pose proof (validation_failure_gives_empty_page Memory.env_down [] Memory.cold)
      as (_ & _ & H & _).
    rewrite (getProducts_reaches_try Memory.env_down [] Memory.cold eq_refl eq_refl).
    apply (H (with_sort None) Memory.unreachable); reflexivity.
Defined.

(** C4.  [getProductsByCategory("shoes", {sex: "men", gte: "50"})] builds
    the match conditions [category.slug = "shoes"], [sex = "men"] and
    [price.$gte = 50] (the number), and nothing else; its read callback
    issues exactly one query, the [find] with these conditions. *)
Theorem shoes_men_from_50 :
  matchConditions_of "shoes" [("sex", PString "men"); ("gte", PString "50")]
  = [("category.slug", JStr "shoes"); ("sex", JStr "men");
     ("price", JObj [("$gte", JNum 50)])]
  /\ Num.parseFloat "50" = 50%float
  /\ (forall env w,
         new_queries w
           (snd (callback (getProductsByCategory_cache env "shoes"
                             [("sex", PString "men"); ("gte", PString "50")]) w))
         = [QFind Products
              (JObj [("category.slug", JStr "shoes"); ("sex", JStr "men");
                     ("price", JObj [("$gte", JNum 50)])])
              None (Some created_desc) true]).
Proof.
  split; [reflexivity|]. split; [reflexivity|].
  intros env w. unfold new_queries.
  cbn [getProductsByCategory_cache callback]. run_m.
  change (matchConditions_of "shoes" [("sex", PString "men"); ("gte", PString "50")])
    with [("category.slug", JStr "shoes"); ("sex", JStr "men");
          ("price", JObj [("$gte", JNum 50)])].
  destruct (find env Products _ None (Some created_desc) true);
    cbn [snd record_query issued]; rewrite drop_app_length; reflexivity.
Qed.

(** C5.  Every cache-wrapped reader passes a revalidation period of 3600
    seconds.  When a call misses the cache (so its read callback runs) and
    returns, any call under the identical key made less than 3600 seconds
    later returns the stored value without running its callback: no query
    is issued and the world is unchanged. *)
Theorem cached_read_runs_callback_once env :
  (forall r, revalidate (cache_call env r) = 3600%Z)
  /\ (forall r r' w v w1 t,
         fresh_entry (cache_call env r) w = None ->
         read env r w = (Returned v, w1) ->
         keyParts (cache_call env r') = keyParts (cache_call env r) ->
         (clock w <= t < clock w + 3600)%Z ->
         issued w1 = issued (snd (callback (cache_call env r) w))
         /\ read env r' (at_time t w1) = (Returned v, at_time t w1)
         /\ new_queries (at_time t w1) (snd (read env r' (at_time t w1))) = []).
Proof.
  split; [apply revalidate_3600|].
  intros r r' w v w1 t Hmiss Hrun Hkey [_ Ht].
  pose proof (hit_after_miss env r r' w v w1 t Hmiss Hrun Hkey Ht) as Hhit.
  split; [|split; [exact Hhit|]].
  - pose proof (read_returned_connected _ _ _ _ _ Hrun) as Hc.
    rewrite (read_connected _ _ _ Hc), (unstable_cache_miss _ _ Hmiss) in Hrun.
    destruct (callback (cache_call env r) w) as [[v0|e0] w0]; [|discriminate].
    injection Hrun as <- <-. reflexivity.
  - rewrite Hhit. unfold new_queries. cbn [snd]. apply drop_all.
Qed.

(** The featured products, read at time 0 and again at time 3599. *)
Lemma cached_read_runs_callback_once_witness :
  new_queries Memory.cold
    (snd (read (Memory.env_of Memory.shop) FeaturedProducts Memory.cold))
  = [QFind Products (JObj []) (Some 8%Z) (Some created_desc) false]
  /\ read (Memory.env_of Memory.shop) FeaturedProducts
       (at_time 3599 (snd (read (Memory.env_of Memory.shop) FeaturedProducts Memory.cold)))
     = (Returned featured_of_shop,
        at_time 3599 (snd (read (Memory.env_of Memory.shop) FeaturedProducts Memory.cold))).
Proof.
  split; [reflexivity|].
  assert (Hwindow : (clock Memory.cold <= 3599 < clock Memory.cold + 3600)%Z)
    by (cbn; lia).
  pose proof (proj2 (cached_read_runs_callback_once (Memory.env_of Memory.shop))
                FeaturedProducts FeaturedProducts Memory.cold featured_of_shop
                (snd (read (Memory.env_of Memory.shop) FeaturedProducts Memory.cold))
                3599%Z eq_refl eq_refl eq_refl Hwindow) as (_ & H & _).
  exact H.
Defined.

(** C6.  In [getProducts] the sort stage is the seventh stage of the
    pipeline; without a sort parameter it sorts on [createdAt]
    descending, and with one it sorts on the first component of the
    parameter, ascending only when the second component is "asc" and
    descending for any other or missing direction. *)
Theorem sort_defaults_to_created_desc (search : Search) :
  (forall input, products_pipeline input search !! 6%nat = Some (sort_stage search))
  /\ (forall env input w,
         connectDb env = Returned tt -> noStore env = Returned tt ->
         schema_parse env input = Returned search ->
         new_queries w (snd (getProducts env input w)) !! 0%nat
         = Some (QAggregate Products (products_pipeline input search)))
  /\ (sort search = None ->
      sort_stage search = JObj [("$sort", JObj [("createdAt", JNum (-1))])])
  /\ (forall s,
         sort search = Some s ->
         sort_stage search
         = JObj [("$sort",
                  JObj [(sort_key (Js.split "." s !! 0%nat),
                         JNum (if decide (Js.split "." s !! 1%nat = Some "asc")
                               then 1 else -1))])])
  /\ (forall name order,
         Js.occurs "." name = false -> Js.occurs "." order = false ->
         sort search = Some (name +:+ "." +:+ order) ->
         order <> "asc" ->
         sort_stage search = JObj [("$sort", JObj [(name, JNum (-1))])])
  /\ (forall name,
         Js.occurs "." name = false ->
         sort search = Some name ->
         sort_stage search = JObj [("$sort", JObj [(name, JNum (-1))])])
  /\ (forall name,
         Js.occurs "." name = false ->
         sort search = Some (name +:+ ".asc") ->
         sort_stage search = JObj [("$sort", JObj [(name, JNum 1)])]).
Proof.
  assert (Hdir : forall o, o <> "asc" -> sort_direction (Some o) = (-1)%float).
  { intros o Ho. unfold sort_direction.
    destruct (String.eqb_spec o "asc"); [contradiction|reflexivity]. }
  split; [reflexivity|].
  split; [intros env input w; apply getProducts_first_query|].
  repeat split.
  - intros E. unfold sort_stage, sort_of. rewrite E. reflexivity.
  - intros s E. unfold sort_stage, sort_of, destructure2. rewrite E.
    do 3 f_equal. f_equal. f_equal.
    destruct (Js.split "." s !! 1%nat) as [o|]; cbn [sort_direction].
    + destruct (String.eqb_spec o "asc") as [->|Hne];
        destruct (decide _) as [D|D]; congruence.
    + destruct (decide _) as [D|D]; congruence.
  - intros name order Hn Ho E Hne. unfold sort_stage, sort_of, destructure2.
    rewrite E. cbv beta iota. rewrite (split_pair _ _ _ Hn Ho).
    cbn [lookup list_lookup]. rewrite (Hdir _ Hne). reflexivity.
  - intros name Hn E. unfold sort_stage, sort_of, destructure2.
    rewrite E, (split_without _ _ Hn). reflexivity.
  - intros name Hn E. unfold sort_stage, sort_of, destructure2.
    rewrite E. change (name +:+ ".asc") with (name +:+ "." +:+ "asc").
    simpl. rewrite (split_pair _ name "asc" Hn eq_refl). reflexivity.
Qed.

(** No sort parameter: [createdAt] descending; "price.up": [price]
    descending. *)
Lemma sort_defaults_to_created_desc_witness :
  sort_stage (with_sort None) = JObj [("$sort", JObj [("createdAt", JNum (-1))])]
  /\ sort_stage (with_sort (Some "price.up")) = JObj [("$sort", JObj [("price", JNum (-1))])].
Proof.
  split.
  - apply (proj1 (proj2 (proj2 (sort_defaults_to_created_desc (with_sort None))))).
    reflexivity.
  - pose proof (sort_defaults_to_created_desc (with_sort (Some "price.up")))
      as (_ & _ & _ & _ & H & _).
    apply (H "price" "up"); [reflexivity | reflexivity | reflexivity | discriminate].
Defined.



(** C8.  The request [{per_page: "2", page: "1", sort: "price.asc"}]
    makes [getProducts] ask the driver for [$sort: {price: 1}], [$skip: 0]
    and [$limit: 2].  Over two matching products priced 10 and 20, of
    which the cheaper is the older, and in either storage order, it
    returns the product priced 10 before the one priced 20 with
    [pageCount = ceil(2 / 2) = 1], whereas without the sort parameter the
    product priced 20 comes first.  Over three products the same request
    returns the two cheapest with [pageCount = ceil(3 / 2) = 2], and its
    second page the most expensive one.  In general, when the validation,
    the aggregation and the count succeed, the returned [pageCount] is
    [Math.ceil(total / limit)], where [total] is what counting the
    documents matching the filter of the [$match] stage returned. *)
Theorem page_count_is_ceiling :
  (forall env w search,
      connectDb env = Returned tt -> noStore env = Returned tt ->
      schema_parse env page_request = Returned search ->
      sort search = Some "price.asc" ->
      exists pipeline,
        new_queries w (snd (getProducts env page_request w)) !! 0%nat
        = Some (QAggregate Products pipeline)
        /\ pipeline !! 6%nat = Some (JObj [("$sort", JObj [("price", JNum 1)])])
        /\ pipeline !! 7%nat = Some (JObj [("$skip", JNum 0)])
        /\ pipeline !! 8%nat = Some (JObj [("$limit", JNum 2)]))
  /\ (fst (getProducts (Memory.env_of priced_pair) page_request Memory.cold)
      = Returned (page_result [product_view "a10" "Clog" 10 1;
                               product_view "b20" "Pump" 20 2] 1)
      /\ fst (getProducts (Memory.env_of priced_pair_reversed) page_request Memory.cold)
         = Returned (page_result [product_view "a10" "Clog" 10 1;
                                  product_view "b20" "Pump" 20 2] 1)
      /\ data_prices (fst (getProducts (Memory.env_of priced_pair) page_request
                             Memory.cold))
         = [JNum 10; JNum 20]
      /\ data_prices (fst (getProducts (Memory.env_of priced_pair)
                             [("per_page", PString "2"); ("page", PString "1")]
                             Memory.cold))
         = [JNum 20; JNum 10]
      /\ data_prices (fst (getProducts (Memory.env_of priced_pair)
                             [("per_page", PString "2"); ("page", PString "1");
                              ("sort", PString "price.desc")]
                             Memory.cold))
         = [JNum 20; JNum 10]
      /\ countDocuments (Memory.env_of priced_pair) Products
           (JObj (filter_of (with_sort (Some "price.asc")))) = Returned 2%float
      /\ Num.ceil (2 / 2) = 1%float)
  /\ (data_prices (fst (getProducts (Memory.env_of priced_three) page_request Memory.cold))
      = [JNum 10; JNum 20]
      /\ page_count (fst (getProducts (Memory.env_of priced_three) page_request
                            Memory.cold))
         = JNum 2
      /\ data_prices (fst (getProducts (Memory.env_of priced_three)
                             [("per_page", PString "2"); ("page", PString "2");
                              ("sort", PString "price.asc")]
                             Memory.cold))
         = [JNum 30]
      /\ Num.ceil (3 / 2) = 2%float)
  /\ (forall env input w search products total,
         connectDb env = Returned tt -> noStore env = Returned tt ->
         schema_parse env input = Returned search ->
         aggregate env Products (products_pipeline input search) = Returned products ->
         countDocuments env Products (JObj (filter_of search)) = Returned total ->
         products_pipeline input search !! 0%nat
         = Some (JObj [("$match", JObj (filter_of search))])
         /\ fst (getProducts env input w)
            = Returned (page_result products (Num.ceil (total / limit_of input)))).
Proof.
  split; [|split; [|split]].
  - intros env w search H1 H2 E Hsort.
    exists (products_pipeline page_request search).
    split; [exact (getProducts_first_query env page_request w search H1 H2 E)|].
    split; [|split; reflexivity].
    cbn [products_pipeline lookup list_lookup].
    unfold sort_stage, sort_of. rewrite Hsort. reflexivity.
  - repeat split; vm_compute; reflexivity.
  - repeat split; vm_compute; reflexivity.
  - intros env input w search products total H1 H2 E1 E2 E3.
    split; [reflexivity|].
    rewrite (getProducts_reaches_try _ _ _ H1 H2), getProducts_try_paths, E1.
    cbn zeta. rewrite E2, E3. reflexivity.
Qed.

(** The three products, two to a page, cheapest first: two pages. *)
Lemma page_count_is_ceiling_witness :
  fst (getProducts (Memory.env_of priced_three) page_request Memory.cold)
  = Returned (page_result [product_view "a10" "Clog" 10 1;
                           product_view "b20" "Pump" 20 2]
                          2).
Proof.
  pose proof (proj2 (proj2 (proj2 page_count_is_ceiling))
                (Memory.env_of priced_three) page_request Memory.cold
                (with_sort (Some "price.asc"))
                [product_view "a10" "Clog" 10 1; product_view "b20" "Pump" 20 2]
                3%float eq_refl eq_refl eq_refl eq_refl eq_refl) as [_ H].
  exact H.
Defined.

(** C9.  [getSubCategoriesOfCategory] uses the constant key
    [["subcategories"]] and the constant tag list [["subcategories"]]
    whatever the slug.  So when a call for one slug misses the cache and
    returns (its value being the envelope of that slug's query), a call
    for any other slug made less than 3600 seconds later returns that same
    value and issues no query of its own. *)
Theorem subcategories_share_one_entry env s1 s2 :
  keyParts (getSubCategoriesOfCategory_cache env s1) = ["subcategories"]
  /\ keyParts (getSubCategoriesOfCategory_cache env s2) = ["subcategories"]
  /\ tags (getSubCategoriesOfCategory_cache env s1)
     = tags (getSubCategoriesOfCategory_cache env s2)
  /\ (forall w v w1 t,
         fresh_entry (getSubCategoriesOfCategory_cache env s1) w = None ->
         getSubCategoriesOfCategory env s1 w = (Returned v, w1) ->
         (clock w <= t < clock w + 3600)%Z ->
         (forall found,
             find env Subcategories (JObj [("category.slug", JStr s1)]) None None true
             = Returned found ->
             v = ApiResponse_success "Fetched subcategories!" (JArr found))
         /\ getSubCategoriesOfCategory env s2 (at_time t w1) = (Returned v, at_time t w1)
         /\ issued (snd (getSubCategoriesOfCategory env s2 (at_time t w1))) = issued w1).
Proof.
  split; [reflexivity|]. split; [reflexivity|]. split; [reflexivity|].
  intros w v w1 t Hmiss Hrun [_ Ht].
  change (getSubCategoriesOfCategory env s1 w)
    with (read env (SubCategoriesOfCategory s1) w) in Hrun.
  pose proof (hit_after_miss env (SubCategoriesOfCategory s1)
                (SubCategoriesOfCategory s2) w v w1 t Hmiss Hrun eq_refl Ht) as Hhit.
  change (read env (SubCategoriesOfCategory s2))
    with (getSubCategoriesOfCategory env s2) in Hhit.
  split; [|split; [exact Hhit | rewrite Hhit; reflexivity]].
  intros found Hfound.
  pose proof (read_returned_connected _ _ _ _ _ Hrun) as Hc.
  rewrite (read_connected _ _ _ Hc) in Hrun.
  change (cache_call env (SubCategoriesOfCategory s1))
    with (getSubCategoriesOfCategory_cache env s1) in Hrun.
  rewrite (unstable_cache_miss _ _ Hmiss) in Hrun.
  cbn [getSubCategoriesOfCategory_cache callback] in Hrun. run_m.
  rewrite Hfound in Hrun. cbn beta iota in Hrun. congruence.
Qed.

(** Asked for the subcategories of "hats" right after those of "shoes",
    the reader answers with the subcategories of "shoes"; asked first, it
    would have answered with none. *)
Lemma subcategories_share_one_entry_witness :
  fst (getSubCategoriesOfCategory (Memory.env_of Memory.shop) "hats" Memory.cold)
  = Returned (ApiResponse_success "Fetched subcategories!" (JArr []))
  /\ fst (getSubCategoriesOfCategory (Memory.env_of Memory.shop) "hats"
            (at_time 60 (snd (getSubCategoriesOfCategory (Memory.env_of Memory.shop)
                                "shoes" Memory.cold))))
     = Returned subcategories_of_shoes.
Proof.
  split; [reflexivity|].
  assert (Hwindow : (clock Memory.cold <= 60 < clock Memory.cold + 3600)%Z)
    by (cbn; lia).
  pose proof (subcategories_share_one_entry (Memory.env_of Memory.shop) "shoes" "hats")
    as (_ & _ & _ & H).
  destruct (H Memory.cold subcategories_of_shoes
              (snd (getSubCategoriesOfCategory (Memory.env_of Memory.shop)
                      "shoes" Memory.cold))
              60%Z eq_refl eq_refl Hwindow) as (_ & Hhit & _).
  rewrite Hhit. reflexivity.
Defined.

(** C10.  The read callback of [getRelatedProducts] always issues the
    [findById]; it issues the [$or] query only when that returned a
    product.  When the id matches no product ([findById] gives [null]) the
    callback returns the empty list, and so does the reader, once
    connected, on a cache miss, neither throwing nor issuing the [$or]
    query. *)
Theorem related_of_missing_product env productId w :
  new_queries w (snd (callback (getRelatedProducts_cache env productId) w))
  = QFindById Products productId (Some "categoryId subCategoryId")
    :: match findById env Products productId (Some "categoryId subCategoryId") with
       | Returned product =>
           if to_boolean product
           then [QFind Products (related_filter product) (Some 4%Z) (Some created_desc) false]
           else []
       | Thrown _ => []
       end
  /\ (findById env Products productId (Some "categoryId subCategoryId") = Returned JNull ->
      fst (callback (getRelatedProducts_cache env productId) w) = Returned (JArr [])
      /\ (connectDb env = Returned tt ->
          fresh_entry (getRelatedProducts_cache env productId) w = None ->
          fst (getRelatedProducts env productId w) = Returned (JArr [])
          /\ new_queries w (snd (getRelatedProducts env productId w))
             = [QFindById Products productId (Some "categoryId subCategoryId")])).
Proof.
  split.
  - cbn [getRelatedProducts_cache callback]. run_m.
    destruct (findById env Products productId _) as [product|e];
      [|apply new_queries_one].
    destruct (to_boolean product); cbn [negb]; cbn beta iota;
      [|apply new_queries_one].
    destruct (find env Products _ _ _ _); apply new_queries_two.
  - intros Hnone.
    assert (Hcb : callback (getRelatedProducts_cache env productId) w
                  = (Returned (JArr []),
                     record_query
                       (QFindById Products productId (Some "categoryId subCategoryId")) w)).
    { cbn [getRelatedProducts_cache callback]. run_m. rewrite Hnone. reflexivity. }
    split; [rewrite Hcb; reflexivity|].
    intros Hc Hmiss.
    change (getRelatedProducts env productId w)
      with (read env (RelatedProducts productId) w).
    rewrite (read_connected _ _ _ Hc).
    change (cache_call env (RelatedProducts productId))
      with (getRelatedProducts_cache env productId).
    rewrite (unstable_cache_miss _ _ Hmiss), Hcb.
    split; [reflexivity|]. cbn [snd]. rewrite new_queries_remember.
    apply new_queries_one.
Qed.

(** An id the shop does not know: the empty list after the one lookup. *)
Lemma related_of_missing_product_witness :
  fst (getRelatedProducts (Memory.env_of Memory.shop) "p404" Memory.cold)
  = Returned (JArr [])
  /\ new_queries Memory.cold
       (snd (getRelatedProducts (Memory.env_of Memory.shop) "p404" Memory.cold))
     = [QFindById Products "p404" (Some "categoryId subCategoryId")].
Proof.
  pose proof (related_of_missing_product (Memory.env_of Memory.shop) "p404" Memory.cold)
    as [_ H].
  destruct (H eq_refl) as [_ Hreader].
  exact (Hreader eq_refl eq_refl).
Defined.

(** ** Further properties of the listing *)

(** The filter in normal form: one optional clause per parameter, in a
    fixed order. *)
Lemma filter_normal_form search :
  filter_of search
  = match categories search with
    | Some s => [("categoryId", JObj [("$in", JArr (map JStr (Js.split "." s)))])]
    | None => []
    end
    ++ match subcategories search with
       | Some s => [("subcategoryId", JObj [("$in", JArr (map JStr (Js.split "." s)))])]
       | None => []
       end
    ++ match price_range search with
       | Some s =>
           [("price",
             JObj (match Js.split "-" s !! 0%nat with
                   | Some lo => [("$gte", JStr lo)]
                   | None => []
                   end
                   ++ match Js.split "-" s !! 1%nat with
                      | Some hi => [("$lte", JStr hi)]
                      | None => []
                      end))]
       | None => []
       end.
Proof.
  unfold filter_of, split_or_empty, destructure2.
  destruct (categories search) as [c|], (subcategories search) as [sc|];
    rewrite ?split_length_pos;
    (destruct (price_range search) as [pr|];
     [ pose proof (split_nonempty "-" pr) as Hne;
       destruct (Js.split "-" pr) as [|lo [|hi rest]]; [congruence| |]; reflexivity
     | reflexivity ]).
Qed.

(** X1.  The filter of [getProducts] is the concatenation of three
    independent optional clauses, in this order: [categoryId: {$in: ids}]
    exactly when [categories] is given (the ids being its dot-separated
    components, so an empty parameter gives the one empty id),
    [subcategoryId: {$in: ids}] likewise, and the price clause exactly
    when [price_range] is given.  It constrains no other field, and it is
    the empty filter when none of the three is given. *)
Theorem filter_clauses_are_additive (search : Search) :
  get_prop "categoryId" (filter_of search)
  = match categories search with
    | Some s => JObj [("$in", JArr (map JStr (Js.split "." s)))]
    | None => JUndefined
    end
  /\ get_prop "subcategoryId" (filter_of search)
     = match subcategories search with
       | Some s => JObj [("$in", JArr (map JStr (Js.split "." s)))]
       | None => JUndefined
       end
  /\ has_prop "price" (filter_of search)
     = match price_range search with Some _ => true | None => false end
  /\ (forall k, k <> "categoryId" -> k <> "subcategoryId" -> k <> "price" ->
                has_prop k (filter_of search) = false)
  /\ Z.of_nat (length (filter_of search))
     = (match categories search with Some _ => 1 | None => 0 end
        + match subcategories search with Some _ => 1 | None => 0 end
        + match price_range search with Some _ => 1 | None => 0 end)%Z
  /\ (categories search = Some "" ->
      get_prop "categoryId" (filter_of search) = JObj [("$in", JArr [JStr ""])]).
Proof.
  rewrite filter_normal_form.
  assert (Hk : forall k k' : string, k <> k' -> String.eqb k' k = false).
  { intros k k' H. apply String.eqb_neq. congruence. }
  split; [|split; [|split; [|split; [|split]]]].
  - destruct (categories search), (subcategories search), (price_range search);
      reflexivity.
  - destruct (categories search), (subcategories search), (price_range search);
      reflexivity.
  - destruct (categories search), (subcategories search), (price_range search);
      reflexivity.
  - intros k H1 H2 H3.
    destruct (categories search), (subcategories search), (price_range search);
      cbn [app has_prop existsb fst]; rewrite ?(Hk _ _ H1), ?(Hk _ _ H2), ?(Hk _ _ H3);
      reflexivity.
  - destruct (categories search), (subcategories search), (price_range search);
      reflexivity.
  - intros E. rewrite E.
    destruct (subcategories search), (price_range search); reflexivity.
Qed.

(** X2.  In [getProducts] neither [limit] nor [page] is ever [0], [-0] or
    [NaN]: a parameter that converts to one of them (absent, not a number,
    "0", the empty string) is replaced by the default, 10 for the limit
    and 1 for the page; any other number, negative, fractional or infinite
    ones included, is taken as it is. *)
Theorem pagination_never_falsy (input : SearchParams) :
  Num.truthy (limit_of input) = true
  /\ Num.truthy (page_of input) = true
  /\ is_zero (limit_of input) = false
  /\ is_nan (limit_of input) = false
  /\ (Num.truthy (Number (param "per_page" input)) = false -> limit_of input = 10%float)
  /\ (Num.truthy (Number (param "page" input)) = false -> page_of input = 1%float)
  /\ (Num.truthy (Number (param "per_page" input)) = true ->
      limit_of input = Number (param "per_page" input))
  /\ (Num.truthy (Number (param "page" input)) = true ->
      page_of input = Number (param "page" input)).
Proof.
  assert (Hor : forall x d, Num.truthy d = true -> Num.truthy (Num.or_else x d) = true).
  { intros x d Hd. unfold Num.or_else. destruct (Num.truthy x) eqn:Hx; assumption. }
  assert (Hlimit : Num.truthy (limit_of input) = true) by (apply Hor; reflexivity).
  assert (Hpage : Num.truthy (page_of input) = true) by (apply Hor; reflexivity).
  split; [exact Hlimit|]. split; [exact Hpage|].
  unfold Num.truthy in Hlimit. apply negb_true_iff, orb_false_iff in Hlimit as [Hz Hn].
  split; [exact Hz|]. split; [exact Hn|].
  unfold limit_of, page_of, Num.or_else.
  split; [intros ->; reflexivity|]. split; [intros ->; reflexivity|].
  split; intros ->; reflexivity.
Qed.

(** A page size of "0" and a blank page number fall back to 10 and 1; a
    page size of "-5" is kept. *)
Lemma pagination_never_falsy_witness :
  limit_of [("per_page", PString "0"); ("page", PString " ")] = 10%float
  /\ page_of [("per_page", PString "0"); ("page", PString " ")] = 1%float
  /\ limit_of [("per_page", PString "-5")] = (-5)%float.
Proof.
  pose proof (pagination_never_falsy [("per_page", PString "0"); ("page", PString " ")])
    as (_ & _ & _ & _ & Hl & Hp & _).
  pose proof (pagination_never_falsy [("per_page", PString "-5")])
    as (_ & _ & _ & _ & _ & _ & Hk & _).
  split; [exact (Hl eq_refl)|]. split; [exact (Hp eq_refl)|]. exact (Hk eq_refl).
Defined.

Lemma new_queries_none w : new_queries w w = [].
Proof. unfold new_queries. apply drop_all. Qed.

(** X3.  [getProducts] never reads or writes the cache and leaves the
    clock alone, so its answer does not depend on the store.  It issues at
    most two queries, both on the products: the aggregation, and then,
    only when the aggregation returned, the count under the very filter of
    the [$match] stage.  When the connection, the marker or the validation
    fails, it issues none. *)
Theorem getProducts_queries env input w :
  store (snd (getProducts env input w)) = store w
  /\ clock (snd (getProducts env input w)) = clock w
  /\ (forall w2, fst (getProducts env input w2) = fst (getProducts env input w))
  /\ new_queries w (snd (getProducts env input w))
     = match connectDb env, noStore env, schema_parse env input with
       | Returned _, Returned _, Returned search =>
           QAggregate Products (products_pipeline input search)
           :: match aggregate env Products (products_pipeline input search) with
              | Returned _ => [QCountDocuments Products (JObj (filter_of search))]
              | Thrown _ => []
              end
       | _, _, _ => []
       end
  /\ (forall search,
         schema_parse env input = Returned search ->
         products_pipeline input search !! 0%nat
         = Some (JObj [("$match", JObj (filter_of search))])).
Proof.
  assert (Hrun : forall w0,
             getProducts env input w0 =
             match connectDb env, noStore env with
             | Returned _, Returned _ => getProducts_try env input w0
             | Thrown e, _ => (Thrown e, w0)
             | Returned _, Thrown e => (Thrown e, w0)
             end).
  { intros w0. unfold getProducts. run_m.
    destruct (connectDb env) as [[]|e]; [|reflexivity].
    destruct (noStore env) as [[]|e]; reflexivity. }
  split; [|split; [|split; [|split]]].
  - rewrite Hrun. destruct (connectDb env) as [[]|e]; [|reflexivity].
    destruct (noStore env) as [[]|e]; [|reflexivity].
    rewrite getProducts_try_paths. case_outcomes; reflexivity.
  - rewrite Hrun. destruct (connectDb env) as [[]|e]; [|reflexivity].
    destruct (noStore env) as [[]|e]; [|reflexivity].
    rewrite getProducts_try_paths. case_outcomes; reflexivity.
  - intros w2. rewrite !Hrun. destruct (connectDb env) as [[]|e]; [|reflexivity].
    destruct (noStore env) as [[]|e]; [|reflexivity].
    rewrite !getProducts_try_paths. case_outcomes; reflexivity.
  - rewrite Hrun. destruct (connectDb env) as [[]|e]; [|apply new_queries_none].
    destruct (noStore env) as [[]|e]; [|apply new_queries_none].
    rewrite getProducts_try_paths.
    destruct (schema_parse env input) as [search|e]; [|apply new_queries_none].
    cbn zeta.
    destruct (aggregate env Products _) as [docs|e]; [|apply new_queries_one].
    destruct (countDocuments env Products _); apply new_queries_two.
  - reflexivity.
Qed.

(** ** Further properties of the category reader *)

(** The match conditions in normal form: the category, then one optional
    clause per truthy parameter. *)
Lemma matchConditions_normal_form category searchParams :
  matchConditions_of category searchParams
  = ("category.slug", JStr category)
    :: (if param_truthy (param "sex" searchParams)
        then [("sex", param_to_json (param "sex" searchParams))] else [])
    ++ (if param_truthy (param "subcategory" searchParams)
        then [("subCategory.slug", param_to_json (param "subcategory" searchParams))]
        else [])
    ++ (if param_truthy (param "gte" searchParams)
           || param_truthy (param "lte" searchParams)
        then [("price",
               JObj ((if param_truthy (param "gte" searchParams)
                      then [("$gte", JNum (Num.parseFloat
                                             (param_to_string (param "gte" searchParams))))]
                      else [])
                     ++ (if param_truthy (param "lte" searchParams)
                         then [("$lte", JNum (Num.parseFloat
                                                (param_to_string (param "lte" searchParams))))]
                         else [])))]
        else []).
Proof.
  unfold matchConditions_of.
  destruct (param_truthy (param "sex" searchParams)),
    (param_truthy (param "subcategory" searchParams)),
    (param_truthy (param "gte" searchParams)),
    (param_truthy (param "lte" searchParams)); reflexivity.
Qed.

(** X4.  The match conditions of [getProductsByCategory] always restrict
    [category.slug] to the category, whatever the parameters.  A clause
    for [sex], [subCategory.slug] or a price bound is present exactly when
    its parameter is truthy, so an empty string adds none, and there is a
    [price] property exactly when [gte] or [lte] is truthy; a bound is
    [parseFloat] of its parameter, also when that is [NaN].  Only the four
    parameters [sex], [subcategory], [gte] and [lte] matter: two parameter
    objects agreeing on them give the same conditions and the same cache
    key. *)
Theorem match_conditions_follow_truthy_params category searchParams :
  get_prop "category.slug" (matchConditions_of category searchParams) = JStr category
  /\ has_prop "sex" (matchConditions_of category searchParams)
     = param_truthy (param "sex" searchParams)
  /\ has_prop "subCategory.slug" (matchConditions_of category searchParams)
     = param_truthy (param "subcategory" searchParams)
  /\ has_prop "price" (matchConditions_of category searchParams)
     = param_truthy (param "gte" searchParams) || param_truthy (param "lte" searchParams)
  /\ (param_truthy (param "gte" searchParams) = true ->
      member "$gte" (get_prop "price" (matchConditions_of category searchParams))
      = JNum (Num.parseFloat (param_to_string (param "gte" searchParams))))
  /\ (param_truthy (param "gte" searchParams) = false ->
      member "$gte" (get_prop "price" (matchConditions_of category searchParams))
      = JUndefined)
  /\ (param_truthy (param "lte" searchParams) = true ->
      member "$lte" (get_prop "price" (matchConditions_of category searchParams))
      = JNum (Num.parseFloat (param_to_string (param "lte" searchParams))))
  /\ (param_truthy (param "lte" searchParams) = false ->
      member "$lte" (get_prop "price" (matchConditions_of category searchParams))
      = JUndefined)
  /\ (forall other,
         (forall k, In k category_params -> param k other = param k searchParams) ->
         matchConditions_of category other = matchConditions_of category searchParams
         /\ cacheKey_of category other = cacheKey_of category searchParams).
Proof.
  rewrite matchConditions_normal_form.
  split; [reflexivity|].
  split; [destruct (param_truthy (param "sex" searchParams)),
            (param_truthy (param "subcategory" searchParams)),
            (param_truthy (param "gte" searchParams)),
            (param_truthy (param "lte" searchParams)); reflexivity|].
  split; [destruct (param_truthy (param "sex" searchParams)),
            (param_truthy (param "subcategory" searchParams)),
            (param_truthy (param "gte" searchParams)),
            (param_truthy (param "lte" searchParams)); reflexivity|].
  split; [destruct (param_truthy (param "sex" searchParams)),
            (param_truthy (param "subcategory" searchParams)),
            (param_truthy (param "gte" searchParams)),
            (param_truthy (param "lte" searchParams)); reflexivity|].
  split; [intros ->; destruct (param_truthy (param "sex" searchParams)),
            (param_truthy (param "subcategory" searchParams)),
            (param_truthy (param "lte" searchParams)); reflexivity|].
  split; [intros ->; destruct (param_truthy (param "sex" searchParams)),
            (param_truthy (param "subcategory" searchParams)),
            (param_truthy (param "lte" searchParams)); reflexivity|].
  split; [intros ->; destruct (param_truthy (param "sex" searchParams)),
            (param_truthy (param "subcategory" searchParams)),
            (param_truthy (param "gte" searchParams)); reflexivity|].
  split; [intros ->; destruct (param_truthy (param "sex" searchParams)),
            (param_truthy (param "subcategory" searchParams)),
            (param_truthy (param "gte" searchParams)); reflexivity|].
  intros other H.
  assert (H1 : param "sex" other = param "sex" searchParams)
    by (apply H; cbn; tauto).
  assert (H2 : param "subcategory" other = param "subcategory" searchParams)
    by (apply H; cbn; tauto).
  assert (H3 : param "gte" other = param "gte" searchParams)
    by (apply H; cbn; tauto).
  assert (H4 : param "lte" other = param "lte" searchParams)
    by (apply H; cbn; tauto).
  rewrite (matchConditions_normal_form category other).
  unfold cacheKey_of. rewrite H1, H2, H3, H4. split; reflexivity.
Qed.

(** An empty [sex], a bound that is not a number, and a page number that
    the reader ignores. *)
Lemma match_conditions_follow_truthy_params_witness :
  matchConditions_of "shoes" [("sex", PString ""); ("gte", PString "cheap")]
  = [("category.slug", JStr "shoes"); ("price", JObj [("$gte", JNum nan)])]
  /\ matchConditions_of "shoes" [("page", PString "2"); ("gte", PString "50")]
     = matchConditions_of "shoes" [("gte", PString "50")]
  /\ cacheKey_of "shoes" [("page", PString "2"); ("gte", PString "50")]
     = cacheKey_of "shoes" [("gte", PString "50")].
Proof.
  split; [reflexivity|].
  pose proof (match_conditions_follow_truthy_params "shoes" [("gte", PString "50")])
    as (_ & _ & _ & _ & _ & _ & _ & _ & H).
  apply (H [("page", PString "2"); ("gte", PString "50")]).
  intros k Hk. cbn in Hk.
  destruct Hk as [<- | [<- | [<- | [<- | []]]]]; reflexivity.
Defined.

(** ** The cache key of the category reader *)

Lemma or_empty_dashless v :
  dashless v = true -> Js.occurs "-" (or_empty v) = false.
Proof.
  destruct v as [|s|l]; cbn; [reflexivity| |discriminate].
  intros H. apply negb_true_iff in H. unfold or_empty. cbn.
  destruct (String.eqb s ""); [reflexivity|exact H].
Qed.

(** For an absent or string parameter, [v || ''] determines what the
    conditions use of [v]. *)
Lemma or_empty_determines v v' :
  dashless v = true -> dashless v' = true ->
  or_empty v = or_empty v' ->
  param_truthy v = param_truthy v'
  /\ (param_truthy v = true -> v = v').
Proof.
  assert (Hs : forall s, or_empty (PString s) = s).
  { intros s. unfold or_empty. cbn. destruct (String.eqb_spec s ""); cbn; congruence. }
  destruct v as [|s|l], v' as [|s'|l']; cbn [dashless]; try discriminate; intros _ _.
  - split; reflexivity.
  - rewrite Hs. change (or_empty PUndefined) with "". intros <-. split; [reflexivity|].
    discriminate.
  - rewrite Hs. change (or_empty PUndefined) with "". intros ->. split; [reflexivity|].
    discriminate.
  - rewrite !Hs. intros ->. split; reflexivity.
Qed.

(** Without dashes inside its parts, the key splits back into them. *)
Lemma cacheKey_parts category searchParams :
  Js.occurs "-" category = false ->
  (forall k, In k category_params -> dashless (param k searchParams) = true) ->
  Js.split "-" (cacheKey_of category searchParams)
  = ["products"; category;
     or_empty (param "sex" searchParams);
     or_empty (param "subcategory" searchParams);
     or_empty (param "gte" searchParams);
     or_empty (param "lte" searchParams)].
Proof.
  intros Hc H. unfold cacheKey_of.
  change ("products-" +:+ category
            +:+ "-" +:+ or_empty (param "sex" searchParams)
            +:+ "-" +:+ or_empty (param "subcategory" searchParams)
            +:+ "-" +:+ or_empty (param "gte" searchParams)
            +:+ "-" +:+ or_empty (param "lte" searchParams))
    with ("products" +:+ "-" +:+ category
            +:+ "-" +:+ or_empty (param "sex" searchParams)
            +:+ "-" +:+ or_empty (param "subcategory" searchParams)
            +:+ "-" +:+ or_empty (param "gte" searchParams)
            +:+ "-" +:+ or_empty (param "lte" searchParams)).
  rewrite (split_at_first "-" "products" _ eq_refl).
  rewrite (split_at_first "-" category _ Hc).
  rewrite (split_at_first "-" _ _ (or_empty_dashless _ (H "sex" ltac:(cbn; tauto)))).
  rewrite (split_at_first "-" _ _ (or_empty_dashless _ (H "subcategory" ltac:(cbn; tauto)))).
  rewrite (split_pair "-" _ _ (or_empty_dashless _ (H "gte" ltac:(cbn; tauto)))
             (or_empty_dashless _ (H "lte" ltac:(cbn; tauto)))).
  reflexivity.
Qed.

(** X5.  When the category and the four parameters of
    [getProductsByCategory] are absent or strings without a dash, the
    cache key determines the query: two requests with the same key have
    the same category and the same match conditions, so an entry stored
    under the key answers the request it is served to. *)
Theorem cache_key_determines_query category searchParams category' searchParams' :
  Js.occurs "-" category = false ->
  Js.occurs "-" category' = false ->
  (forall k, In k category_params -> dashless (param k searchParams) = true) ->
  (forall k, In k category_params -> dashless (param k searchParams') = true) ->
  cacheKey_of category searchParams = cacheKey_of category' searchParams' ->
  category = category'
  /\ matchConditions_of category searchParams
     = matchConditions_of category' searchParams'.
Proof.
  intros Hc Hc' H H' Hkey.
  apply (f_equal (Js.split "-")) in Hkey.
  rewrite (cacheKey_parts _ _ Hc H), (cacheKey_parts _ _ Hc' H') in Hkey.
  injection Hkey as <- E1 E2 E3 E4.
  split; [reflexivity|].
  destruct (or_empty_determines _ _ (H "sex" ltac:(cbn; tauto))
              (H' "sex" ltac:(cbn; tauto)) E1) as [T1 V1].
  destruct (or_empty_determines _ _ (H "subcategory" ltac:(cbn; tauto))
              (H' "subcategory" ltac:(cbn; tauto)) E2) as [T2 V2].
  destruct (or_empty_determines _ _ (H "gte" ltac:(cbn; tauto))
              (H' "gte" ltac:(cbn; tauto)) E3) as [T3 V3].
  destruct (or_empty_determines _ _ (H "lte" ltac:(cbn; tauto))
              (H' "lte" ltac:(cbn; tauto)) E4) as [T4 V4].
  rewrite !matchConditions_normal_form, <- T1, <- T2, <- T3, <- T4.
  destruct (param_truthy (param "sex" searchParams));
    [rewrite <- (V1 eq_refl)|];
    (destruct (param_truthy (param "subcategory" searchParams));
     [rewrite <- (V2 eq_refl)|]);
    (destruct (param_truthy (param "gte" searchParams));
     [rewrite <- (V3 eq_refl)|]);
    (destruct (param_truthy (param "lte" searchParams));
     [rewrite <- (V4 eq_refl)|]); reflexivity.
Qed.

(** An absent [sex] and an empty one give the same key, and the same
    conditions. *)
Lemma cache_key_determines_query_witness :
  matchConditions_of "shoes" [("gte", PString "50")]
  = matchConditions_of "shoes" [("sex", PString ""); ("gte", PString "50")].
Proof.
  refine (proj2 (cache_key_determines_query "shoes" [("gte", PString "50")]
                   "shoes" [("sex", PString ""); ("gte", PString "50")]
                   eq_refl eq_refl _ _ eq_refl));
    intros k Hk; cbn in Hk;
    destruct Hk as [<- | [<- | [<- | [<- | []]]]]; reflexivity.
Defined.

(** X6.  The cache key of [getProductsByCategory] joins its parts with
    dashes and does not escape them, so requests with different match
    conditions can share a key: the category "running-shoes" with
    [sex = "men"] and the category "running" with [sex = "shoes-men"] do.
    Whenever two requests share a key, the second one made less than 3600
    seconds after the first missed the cache is answered with the first
    one's result and issues no query. *)
Theorem cache_key_collides_on_dashes env :
  (cacheKey_of "running-shoes" [("sex", PString "men")]
   = cacheKey_of "running" [("sex", PString "shoes-men")]
   /\ matchConditions_of "running-shoes" [("sex", PString "men")]
      <> matchConditions_of "running" [("sex", PString "shoes-men")])
  /\ (forall category searchParams category' searchParams' w v w1 t,
         cacheKey_of category searchParams = cacheKey_of category' searchParams' ->
         fresh_entry (getProductsByCategory_cache env category searchParams) w = None ->
         getProductsByCategory env category searchParams w = (Returned v, w1) ->
         (clock w <= t < clock w + 3600)%Z ->
         getProductsByCategory env category' searchParams' (at_time t w1)
         = (Returned v, at_time t w1)).
Proof.
  split; [split; [reflexivity|discriminate]|].
  intros category searchParams category' searchParams' w v w1 t Hkey Hmiss Hrun [_ Ht].
  apply (hit_after_miss env (ProductsByCategory category searchParams)
           (ProductsByCategory category' searchParams') w v w1 t Hmiss Hrun);
    [|exact Ht].
  cbn [cache_call getProductsByCategory_cache keyParts]. rewrite Hkey. reflexivity.
Qed.

(** Asked for the men's products of "running-shoes" and, a minute later,
    for the "shoes-men" products of "running": the second answer is the
    first one, message included. *)
Lemma cache_key_collides_on_dashes_witness :
  fst (getProductsByCategory (Memory.env_of Memory.shop) "running"
         [("sex", PString "shoes-men")]
         (at_time 60 (snd (getProductsByCategory (Memory.env_of Memory.shop)
                             "running-shoes" [("sex", PString "men")] Memory.cold))))
  = Returned (ApiResponse_success
                "Successfully fetched products for category: running-shoes" (JArr [])).
Proof.
  assert (Hwindow : (clock Memory.cold <= 60 < clock Memory.cold + 3600)%Z)
    by (cbn; lia).
  rewrite (proj2 (cache_key_collides_on_dashes (Memory.env_of Memory.shop))
             "running-shoes" [("sex", PString "men")]
             "running" [("sex", PString "shoes-men")] Memory.cold
             (ApiResponse_success
                "Successfully fetched products for category: running-shoes" (JArr []))
             (snd (getProductsByCategory (Memory.env_of Memory.shop)
                     "running-shoes" [("sex", PString "men")] Memory.cold))
             60%Z eq_refl eq_refl eq_refl Hwindow).
  reflexivity.
Defined.

(** ** Keys of the readers taking an id *)

(** A call under one key leaves a call under another key without an entry
    to be served from. *)
Lemma other_key_still_misses env r r' w v w1 t :
  keyParts (cache_call env r') <> keyParts (cache_call env r) ->
  read env r w = (Returned v, w1) ->
  fresh_entry (cache_call env r') w = None ->
  (clock w <= t)%Z ->
  fresh_entry (cache_call env r') (at_time t w1) = None.
Proof.
  intros Hkey Hrun Hmiss Ht.
  assert (Hstore : store w1 !! keyParts (cache_call env r')
                   = store w !! keyParts (cache_call env r')).
  { pose proof (read_returned_connected _ _ _ _ _ Hrun) as Hc.
    rewrite (read_connected _ _ _ Hc) in Hrun. unfold unstable_cache in Hrun.
    destruct (fresh_entry (cache_call env r) w) as [e|].
    - injection Hrun as _ <-. reflexivity.
    - pose proof (callback_quiet env r w) as [Hs _].
      destruct (callback (cache_call env r) w) as [[v0|e0] w0]; [|discriminate].
      injection Hrun as _ <-. cbn [snd] in Hs. unfold remember. cbn [store].
      rewrite lookup_insert_ne by congruence. rewrite Hs. reflexivity. }
  unfold fresh_entry in *. cbn [at_time store clock]. rewrite Hstore.
  destruct (store w !! keyParts (cache_call env r')) as [e|]; [|reflexivity].
  destruct (Z.ltb_spec (clock w) (stored_at e + revalidate (cache_call env r')));
    [discriminate|].
  destruct (Z.ltb_spec t (stored_at e + revalidate (cache_call env r')));
    [lia|reflexivity].
Qed.

Lemma prefixed_key_injective (prefix a b : string) :
  prefix +:+ a = prefix +:+ b -> a = b.
Proof.
  induction prefix as [|c rest IH]; cbn; [trivial|].
  intros H. injection H as H. exact (IH H).
Qed.

(** X7.  The readers taking an id ([getProductCountByCategory],
    [getProductById], [getRelatedProducts]) put the id in the key and in
    the tag, so different ids never share an entry: after a read for one
    product, a read for another product that has no entry of its own runs
    its own [findById] and returns what that gives. *)
Theorem ids_have_their_own_entries env :
  (forall a b,
      keyParts (getProductCountByCategory_cache env a)
      = keyParts (getProductCountByCategory_cache env b) -> a = b)
  /\ (forall a b,
         keyParts (getProductById_cache env a) = keyParts (getProductById_cache env b) ->
         a = b)
  /\ (forall a b,
         keyParts (getRelatedProducts_cache env a)
         = keyParts (getRelatedProducts_cache env b) -> a = b)
  /\ (forall a, tags (getProductById_cache env a) = keyParts (getProductById_cache env a))
  /\ (forall a b w v w1 t,
         a <> b ->
         getProductById env a w = (Returned v, w1) ->
         fresh_entry (getProductById_cache env b) w = None ->
         (clock w <= t)%Z ->
         fst (getProductById env b (at_time t w1)) = findById env Products b None
         /\ new_queries (at_time t w1) (snd (getProductById env b (at_time t w1)))
            = [QFindById Products b None]).
Proof.
  split; [|split; [|split; [|split]]].
  - intros a b H. injection H as H. exact (prefixed_key_injective _ _ _ H).
  - intros a b H. injection H as H. exact (prefixed_key_injective _ _ _ H).
  - intros a b H. injection H as H. exact (prefixed_key_injective _ _ _ H).
  - reflexivity.
  - intros a b w v w1 t Hab Hrun Hmiss Ht.
    change (getProductById env a w) with (read env (ProductById a) w) in Hrun.
    assert (Hkey : keyParts (cache_call env (ProductById b))
                   <> keyParts (cache_call env (ProductById a))).
    { intros H. injection H as H. apply Hab. symmetry.
      exact (prefixed_key_injective _ _ _ H). }
    pose proof (other_key_still_misses env (ProductById a) (ProductById b)
                  w v w1 t Hkey Hrun Hmiss Ht) as Hstill.
    pose proof (read_returned_connected _ _ _ _ _ Hrun) as Hc.
    change (getProductById env b) with (read env (ProductById b)).
    rewrite (read_connected _ _ _ Hc), (unstable_cache_miss _ _ Hstill).
    cbn [cache_call getProductById_cache callback]. run_m.
    destruct (findById env Products b None) as [doc|e]; cbn [fst snd].
    + split; [reflexivity|]. rewrite new_queries_remember. apply new_queries_one.
    + split; [reflexivity|]. apply new_queries_one.
Qed.

(** Product "p20" read right after product "p10": its own document. *)
Lemma ids_have_their_own_entries_witness :
  fst (getProductById (Memory.env_of Memory.shop) "p20"
         (at_time 5 (snd (getProductById (Memory.env_of Memory.shop) "p10" Memory.cold))))
  = Returned (Memory.product "p20" "Boot" 20 1).
Proof.
  assert (Hlater : (clock Memory.cold <= 5)%Z) by (cbn; lia).
  assert (Hne : "p10" <> "p20") by discriminate.
  pose proof (proj2 (proj2 (proj2 (proj2
                (ids_have_their_own_entries (Memory.env_of Memory.shop)))))
                "p10" "p20" Memory.cold (Memory.product "p10" "Sandal" 10 2)
                (snd (getProductById (Memory.env_of Memory.shop) "p10" Memory.cold))
                5%Z Hne eq_refl eq_refl Hlater) as [H _].
  rewrite H. reflexivity.
Defined.

(** ** Failures and the cache *)

(** What a returning miss stored is served to any later call under the
    key, whatever the driver has become, as long as it connects. *)
Lemma hit_in_any_env env env' r r' w v w1 t :
  fresh_entry (cache_call env r) w = None ->
  read env r w = (Returned v, w1) ->
  keyParts (cache_call env' r') = keyParts (cache_call env r) ->
  connectDb env' = Returned tt ->
  (t < clock w + 3600)%Z ->
  read env' r' (at_time t w1) = (Returned v, at_time t w1).
Proof.
  intros Hmiss Hrun Hkey Hc' Ht.
  pose proof (read_returned_connected _ _ _ _ _ Hrun) as Hc.
  rewrite (read_connected _ _ _ Hc), (unstable_cache_miss _ _ Hmiss) in Hrun.
  pose proof (callback_quiet env r w) as [_ Hclock].
  destruct (callback (cache_call env r) w) as [[v0|e0] w0] eqn:Hcb; [|discriminate].
  injection Hrun as <- <-. cbn [snd] in Hclock.
  rewrite (read_connected _ _ _ Hc').
  rewrite (unstable_cache_hit _ _
             {| cached := v0; stored_at := clock w0;
                entry_tags := tags (cache_call env r) |}); [reflexivity|].
  apply fresh_after_remember; [exact Hkey|].
  rewrite revalidate_3600, Hclock. exact Ht.
Qed.

(** A call that throws stores nothing. *)
Lemma thrown_stores_nothing env r w e w' :
  read env r w = (Thrown e, w') -> store w' = store w /\ clock w' = clock w.
Proof.
  rewrite read_connects. run_m.
  destruct (connectDb env) as [[]|e0]; [|intros H; injection H as _ <-; split; reflexivity].
  intros H. apply unstable_cache_throws in H.
  pose proof (callback_quiet env r w) as Hq. rewrite H in Hq. exact Hq.
Qed.

(** X8.  The two envelope readers catch inside the cached callback, so a
    failed query is cached like a result: for the next 3600 seconds every
    call under the key gets the failure envelope of the first call and no
    query is retried, even when the database has recovered.  The five
    other readers throw, and a call that throws stores nothing: the next
    call finds the cache as it was and runs its query again. *)
Theorem failures_are_cached_only_in_envelopes env env' w t :
  connectDb env = Returned tt ->
  connectDb env' = Returned tt ->
  (clock w <= t < clock w + 3600)%Z ->
  (forall category searchParams err,
      fresh_entry (getProductsByCategory_cache env category searchParams) w = None ->
      find env Products (JObj (matchConditions_of category searchParams))
        None (Some created_desc) true = Thrown err ->
      getProductsByCategory env' category searchParams
        (at_time t (snd (getProductsByCategory env category searchParams w)))
      = (Returned (ApiResponse_failure (message err)),
         at_time t (snd (getProductsByCategory env category searchParams w))))
  /\ (forall slug slug' err,
         fresh_entry (getSubCategoriesOfCategory_cache env slug) w = None ->
         find env Subcategories (JObj [("category.slug", JStr slug)]) None None true
         = Thrown err ->
         getSubCategoriesOfCategory env' slug'
           (at_time t (snd (getSubCategoriesOfCategory env slug w)))
         = (Returned (ApiResponse_failure (message err)),
            at_time t (snd (getSubCategoriesOfCategory env slug w))))
  /\ (forall r err w1,
         fresh_entry (cache_call env r) w = None ->
         read env r w = (Thrown err, w1) ->
         returns_envelope r = false
         /\ store w1 = store w
         /\ fresh_entry (cache_call env' r) (at_time t w1) = None
         /\ read env' r (at_time t w1)
            = match callback (cache_call env' r) (at_time t w1) with
              | (Returned v, w2) => (Returned v, remember (cache_call env' r) v w2)
              | (Thrown e, w2) => (Thrown e, w2)
              end).
Proof.
  intros Hc Hc' [Hlo Hhi].
  split; [|split].
  - intros category searchParams err Hmiss Hfind.
    assert (Hrun : exists w1,
               read env (ProductsByCategory category searchParams) w
               = (Returned (ApiResponse_failure (message err)), w1)).
    { rewrite (read_connected _ _ _ Hc).
      rewrite (unstable_cache_miss (cache_call env (ProductsByCategory category searchParams))
                 w Hmiss).
      cbn [cache_call getProductsByCategory_cache callback]. run_m.
      rewrite Hfind. eexists. reflexivity. }
    destruct Hrun as [w1 Hrun].
    change (getProductsByCategory env category searchParams w)
      with (read env (ProductsByCategory category searchParams) w).
    rewrite Hrun. cbn [snd].
    exact (hit_in_any_env env env' (ProductsByCategory category searchParams)
             (ProductsByCategory category searchParams) w _ _ t Hmiss Hrun
             eq_refl Hc' Hhi).
  - intros slug slug' err Hmiss Hfind.
    assert (Hrun : exists w1,
               read env (SubCategoriesOfCategory slug) w
               = (Returned (ApiResponse_failure (message err)), w1)).
    { rewrite (read_connected _ _ _ Hc).
      rewrite (unstable_cache_miss (cache_call env (SubCategoriesOfCategory slug))
                 w Hmiss).
      cbn [cache_call getSubCategoriesOfCategory_cache callback]. run_m.
      rewrite Hfind. eexists. reflexivity. }
    destruct Hrun as [w1 Hrun].
    change (getSubCategoriesOfCategory env slug w)
      with (read env (SubCategoriesOfCategory slug) w).
    rewrite Hrun. cbn [snd].
    exact (hit_in_any_env env env' (SubCategoriesOfCategory slug)
             (SubCategoriesOfCategory slug') w _ _ t Hmiss Hrun eq_refl Hc' Hhi).
  - intros r err w1 Hmiss Hrun.
    assert (Hplain : returns_envelope r = false).
    { destruct (returns_envelope r) eqn:Hr; [|reflexivity].
      rewrite (read_connected _ _ _ Hc) in Hrun.
      apply unstable_cache_throws in Hrun.
      destruct (envelope_callback env r w Hr) as (v & w' & Hcb & _). congruence. }
    destruct (thrown_stores_nothing _ _ _ _ _ Hrun) as [Hstore Hclock].
    assert (Hstill : fresh_entry (cache_call env' r) (at_time t w1) = None).
    { unfold fresh_entry in *. cbn [at_time store clock]. rewrite Hstore.
      assert (Hk : keyParts (cache_call env' r) = keyParts (cache_call env r))
        by (destruct r; reflexivity).
      rewrite Hk, !revalidate_3600 in *.
      destruct (store w !! keyParts (cache_call env r)) as [e|]; [|reflexivity].
      destruct (Z.ltb_spec (clock w) (stored_at e + 3600)); [discriminate|].
      destruct (Z.ltb_spec t (stored_at e + 3600)); [lia|reflexivity]. }
    split; [exact Hplain|]. split; [exact Hstore|]. split; [exact Hstill|].
    rewrite (read_connected _ _ _ Hc'). apply unstable_cache_miss, Hstill.
Qed.

(** With the database down at time 0 and back at time 60: the category
    reader still answers with the failure, the featured products reader
    reads again. *)
Lemma failures_are_cached_only_in_envelopes_witness :
  fst (getProductsByCategory (Memory.env_of Memory.shop) "shoes" []
         (at_time 60 (snd (getProductsByCategory Memory.env_down "shoes" [] Memory.cold))))
  = Returned (ApiResponse_failure "connection refused")
  /\ fst (getFeaturedProducts (Memory.env_of Memory.shop)
            (at_time 60 (snd (getFeaturedProducts Memory.env_down Memory.cold))))
     = Returned featured_of_shop.
Proof.
  assert (Hwindow : (clock Memory.cold <= 60 < clock Memory.cold + 3600)%Z)
    by (cbn; lia).
  pose proof (failures_are_cached_only_in_envelopes Memory.env_down
                (Memory.env_of Memory.shop) Memory.cold 60%Z eq_refl eq_refl Hwindow)
    as (Henv & _ & Hplain).
  split.
  - rewrite (Henv "shoes" [] Memory.unreachable eq_refl eq_refl). reflexivity.
  - destruct (Hplain FeaturedProducts Memory.unreachable
                (snd (getFeaturedProducts Memory.env_down Memory.cold))
                eq_refl eq_refl) as (_ & _ & _ & Hagain).
    change (getFeaturedProducts (Memory.env_of Memory.shop))
      with (read (Memory.env_of Memory.shop) FeaturedProducts).
    rewrite Hagain. reflexivity.
Defined.

(** X9.  Every reader awaits [connectDb()] before anything else.  When
    it fails, the failure is thrown, no query is issued and the cache is
    untouched, also when the cache holds a fresh entry for the call.  Once
    it has returned, a call with a fresh entry is answered from the cache
    without any query, whatever the driver would do. *)
Theorem cache_needs_the_connection env r w :
  (forall err, connectDb env = Thrown err -> read env r w = (Thrown err, w))
  /\ (forall err input, connectDb env = Thrown err ->
                        getProducts env input w = (Thrown err, w))
  /\ (forall e, connectDb env = Returned tt ->
                fresh_entry (cache_call env r) w = Some e ->
                read env r w = (Returned (cached e), w)).
Proof.
  split; [|split].
  - intros err H. apply read_disconnected, H.
  - intros err input H. apply getProducts_before_try. left. exact H.
  - intros e Hc Hfresh. rewrite (read_connected _ _ _ Hc).
    apply unstable_cache_hit, Hfresh.
Qed.

(** The featured products are cached at time 0; at time 60 they are served
    while the database is down, and not served while the connection
    fails. *)
Lemma cache_needs_the_connection_witness :
  fst (getFeaturedProducts Memory.env_down
         (at_time 60 (snd (getFeaturedProducts (Memory.env_of Memory.shop) Memory.cold))))
  = Returned featured_of_shop
  /\ fst (getFeaturedProducts env_offline
            (at_time 60 (snd (getFeaturedProducts (Memory.env_of Memory.shop) Memory.cold))))
     = Thrown Memory.unreachable.
Proof.
  split.
  - pose proof (cache_needs_the_connection Memory.env_down FeaturedProducts
                  (at_time 60 (snd (getFeaturedProducts (Memory.env_of Memory.shop)
                                      Memory.cold))))
      as (_ & _ & H).
    change (getFeaturedProducts Memory.env_down)
      with (read Memory.env_down FeaturedProducts).
    rewrite (H {| cached := featured_of_shop; stored_at := 0;
                  entry_tags := ["featured-products"] |} eq_refl eq_refl).
    reflexivity.
  - pose proof (cache_needs_the_connection env_offline FeaturedProducts
                  (at_time 60 (snd (getFeaturedProducts (Memory.env_of Memory.shop)
                                      Memory.cold))))
      as (H & _).
    change (getFeaturedProducts env_offline) with (read env_offline FeaturedProducts).
    rewrite (H Memory.unreachable eq_refl). reflexivity.
Defined.

(** ** Pagination arithmetic *)

Lemma or_else_truthy x d : Num.truthy d = true -> Num.truthy (Num.or_else x d) = true.
Proof. intros Hd. unfold Num.or_else. destruct (Num.truthy x) eqn:Hx; assumption. Qed.

(** A truthy number is infinite or finite and not zero. *)
Lemma truthy_shape x :
  Num.truthy x = true ->
  (exists s, Prim2SF x = S754_infinity s) \/ (exists s m e, Prim2SF x = S754_finite s m e).
Proof.
  unfold Num.truthy, is_zero, is_nan. rewrite !FloatAxioms.eqb_spec.
  change (Prim2SF zero) with (S754_zero false).
  destruct (Prim2SF x) as [s| s| |s m e]; cbn; try discriminate; eauto.
Qed.

Lemma is_infinity_shape x s : Prim2SF x = S754_infinity s -> is_infinity x = true.
Proof.
  intros H. unfold is_infinity. rewrite FloatAxioms.eqb_spec, abs_spec, H. reflexivity.
Qed.

Lemma is_zero_shape x s : Prim2SF x = S754_zero s -> is_zero x = true.
Proof. intros H. unfold is_zero. rewrite FloatAxioms.eqb_spec, H. reflexivity. Qed.

Lemma is_nan_shape x : Prim2SF x = S754_nan -> is_nan x = true.
Proof. intros H. unfold is_nan. rewrite FloatAxioms.eqb_spec, H. reflexivity. Qed.

(** X10.  On the first page, whether asked for, defaulted or fallen back
    to, [getProducts] skips nothing: for every finite page size, negative
    and fractional ones included, the skip is zero.  With an infinite page
    size (say [per_page = "Infinity"]) the skip is [NaN]. *)
Theorem first_page_skips_nothing (input : SearchParams) :
  page_of input = 1%float ->
  (is_infinity (limit_of input) = false -> is_zero (skip_of input) = true)
  /\ (is_infinity (limit_of input) = true -> is_nan (skip_of input) = true).
Proof.
  intros Hpage. unfold skip_of. rewrite Hpage.
  change (1 - 1)%float with zero.
  pose proof (mul_spec zero (limit_of input)) as Hmul.
  change (Prim2SF zero) with (S754_zero false) in Hmul.
  destruct (truthy_shape _ (or_else_truthy (Number (param "per_page" input)) 10 eq_refl))
    as [[s Hs] | (s & m & e & Hs)];
    fold (limit_of input) in Hs; rewrite Hs in Hmul; cbn in Hmul.
  - rewrite (is_infinity_shape _ _ Hs). split; [discriminate|].
    intros _. apply is_nan_shape, Hmul.
  - split; [intros _; exact (is_zero_shape _ _ Hmul)|].
    unfold is_infinity. rewrite FloatAxioms.eqb_spec, abs_spec, Hs. discriminate.
Qed.

(** No page parameter and a page size of "-2.5": the skip is (minus) zero. *)
Lemma first_page_skips_nothing_witness :
  is_zero (skip_of [("per_page", PString "-2.5")]) = true.
Proof.
  apply (first_page_skips_nothing [("per_page", PString "-2.5")] eq_refl).
  reflexivity.
Defined.

(** X11.  When the count of matching documents is 0, [getProducts]
    returns a [pageCount] of zero whatever the page size: since the limit
    is never 0 or [NaN], [0 / limit] is a zero and so is its ceiling. *)
Theorem no_match_gives_zero_pages (input : SearchParams) :
  is_zero (Num.ceil (0 / limit_of input)) = true
  /\ (forall env w search products,
         connectDb env = Returned tt -> noStore env = Returned tt ->
         schema_parse env input = Returned search ->
         aggregate env Products (products_pipeline input search) = Returned products ->
         countDocuments env Products (JObj (filter_of search)) = Returned 0%float ->
         exists pageCount,
           fst (getProducts env input w) = Returned (page_result products pageCount)
           /\ is_zero pageCount = true).
Proof.
  assert (Hzero : is_zero (Num.ceil (0 / limit_of input)) = true).
  { pose proof (div_spec zero (limit_of input)) as Hdiv.
    change (Prim2SF zero) with (S754_zero false) in Hdiv.
    assert (Hshape : exists s, Prim2SF (0 / limit_of input) = S754_zero s).
    { destruct (truthy_shape _ (or_else_truthy (Number (param "per_page" input)) 10 eq_refl))
        as [[s Hs] | (s & m & e & Hs)];
        fold (limit_of input) in Hs; rewrite Hs in Hdiv; cbn in Hdiv; eauto. }
    destruct Hshape as [s Hs]. unfold Num.ceil. rewrite Hs.
    exact (is_zero_shape _ _ Hs). }
  split; [exact Hzero|].
  intros env w search products H1 H2 E1 E2 E3.
  exists (Num.ceil (0 / limit_of input)). split; [|exact Hzero].
  rewrite (getProducts_reaches_try _ _ _ H1 H2), getProducts_try_paths, E1.
  cbn zeta. rewrite E2, E3. reflexivity.
Qed.

(** The shop's products filtered on a category it does not have. *)
Lemma no_match_gives_zero_pages_witness :
  exists pageCount,
    fst (getProducts (Memory.env_of Memory.shop)
           [("categories", PString "hats"); ("per_page", PString "7")] Memory.cold)
    = Returned (page_result [] pageCount)
    /\ is_zero pageCount = true.
Proof.
  exact (proj2 (no_match_gives_zero_pages
                  [("categories", PString "hats"); ("per_page", PString "7")])
           (Memory.env_of Memory.shop) Memory.cold
           {| sort := None; categories := Some "hats"; subcategories := None;
              price_range := None |}
           [] eq_refl eq_refl eq_refl eq_refl eq_refl).
Defined.

(** ** The ids of the [$in] clauses *)

Lemma join_split sep s : Js.join (String sep EmptyString) (Js.split sep s) = s.
Proof.
  induction s as [|c rest IH]; [reflexivity|].
  cbn [Js.split]. destruct (Ascii.eqb_spec c sep) as [->|Hne].
  - pose proof (split_nonempty sep rest) as Hn.
    destruct (Js.split sep rest) as [|h t]; [congruence|].
    cbn [Js.join] in *. rewrite IH. reflexivity.
  - pose proof (split_nonempty sep rest) as Hn.
    destruct (Js.split sep rest) as [|h t]; [congruence|].
    destruct t as [|h' t'].
    + cbn [Js.join] in *. rewrite IH. reflexivity.
    + cbn [Js.join] in *. rewrite <- IH. reflexivity.
Qed.

Lemma split_parts_free sep s :
  Forall (fun part => Js.occurs sep part = false) (Js.split sep s).
Proof.
  induction s as [|c rest IH]; [repeat constructor|].
  cbn [Js.split]. destruct (Ascii.eqb c sep) eqn:Hc.
  - constructor; [reflexivity|exact IH].
  - destruct (Js.split sep rest) as [|h t]; [repeat constructor; cbn; rewrite Hc; reflexivity|].
    inversion IH as [|? ? Hh Ht]; subst.
    constructor; [cbn; rewrite Hc; exact Hh|exact Ht].
Qed.

(** X12.  The ids [getProducts] puts in the [$in] clause of [categoryId]
    (and of [subcategoryId]) are the pieces of the parameter between its
    dots: there is at least one, none contains a dot, and joined with dots
    they give the parameter back, so no id is dropped or altered and empty
    pieces are kept as empty ids. *)
Theorem in_clause_ids_round_trip (search : Search) :
  (forall s, categories search = Some s ->
             exists ids,
               get_prop "categoryId" (filter_of search)
               = JObj [("$in", JArr (map JStr ids))]
               /\ ids <> []
               /\ Forall (fun id => Js.occurs "." id = false) ids
               /\ Js.join "." ids = s)
  /\ (forall s, subcategories search = Some s ->
                exists ids,
                  get_prop "subcategoryId" (filter_of search)
                  = JObj [("$in", JArr (map JStr ids))]
                  /\ ids <> []
                  /\ Forall (fun id => Js.occurs "." id = false) ids
                  /\ Js.join "." ids = s).
Proof.
  rewrite filter_normal_form. split; intros s E; rewrite E; exists (Js.split "." s).
  - split; [|split; [apply split_nonempty|split;
                      [apply split_parts_free|apply join_split]]].
    destruct (subcategories search), (price_range search); reflexivity.
  - split; [|split; [apply split_nonempty|split;
                      [apply split_parts_free|apply join_split]]].
    destruct (categories search), (price_range search); reflexivity.
Qed.

(** Two ids with a stray dot at the end: three pieces, the last one empty. *)
Lemma in_clause_ids_round_trip_witness :
  exists ids,
    get_prop "categoryId"
      (filter_of {| sort := None; categories := Some "c1.c2."; subcategories := None;
                    price_range := None |})
    = JObj [("$in", JArr (map JStr ids))]
    /\ ids <> []
    /\ Forall (fun id => Js.occurs "." id = false) ids
    /\ Js.join "." ids = "c1.c2.".
Proof.
  exact (proj1 (in_clause_ids_round_trip
                  {| sort := None; categories := Some "c1.c2."; subcategories := None;
                     price_range := None |}) "c1.c2." eq_refl).
Defined.

(** ** The type of the price bounds *)

(** X13.  [getProducts] passes the price bounds on as the pieces of text
    it cut out of [price_range], never as numbers, whereas
    [getProductsByCategory] passes every bound as a number
    ([parseFloat] of its parameter): in the first filter each property of
    the price clause is [$gte] or [$lte] with a string, in the second with
    a number. *)
Theorem price_bounds_text_or_number :
  (forall search bounds k v,
      get_prop "price" (filter_of search) = JObj bounds ->
      In (k, v) bounds ->
      (k = "$gte" \/ k = "$lte") /\ exists text, v = JStr text)
  /\ (forall category searchParams bounds k v,
         get_prop "price" (matchConditions_of category searchParams) = JObj bounds ->
         In (k, v) bounds ->
         (k = "$gte" \/ k = "$lte") /\ exists x, v = JNum x).
Proof.
  split.
  - intros search bounds k v. rewrite filter_price_clause.
    destruct (destructure2 (split_or_empty "-" (price_range search))) as [[lo|] [hi|]];
      intros H; try discriminate; injection H as <-; cbn [In];
      intros Hin; repeat (destruct Hin as [Hin|Hin]; [injection Hin as <- <-; eauto|]);
      destruct Hin.
  - intros category searchParams bounds k v. rewrite matchConditions_normal_form.
    destruct (param_truthy (param "sex" searchParams)),
      (param_truthy (param "subcategory" searchParams)),
      (param_truthy (param "gte" searchParams)),
      (param_truthy (param "lte" searchParams));
      cbn; intros H; try discriminate; injection H as <-; cbn [In];
      intros Hin; repeat (destruct Hin as [Hin|Hin]; [injection Hin as <- <-; eauto|]);
      destruct Hin.
Qed.

(** The same range, once as "10-20" and once as [gte = "10"], [lte = "20"]. *)
Lemma price_bounds_text_or_number_witness :
  (("$gte" = "$gte" \/ "$gte" = "$lte") /\ exists text, JStr "10" = JStr text)
  /\ (("$lte" = "$gte" \/ "$lte" = "$lte") /\ exists x, JNum 20 = JNum x).
Proof.
  split.
  - apply (proj1 price_bounds_text_or_number (with_price_range "10-20")
             [("$gte", JStr "10"); ("$lte", JStr "20")] "$gte" (JStr "10") eq_refl).
    cbn. tauto.
  - apply (proj2 price_bounds_text_or_number "shoes"
             [("gte", PString "10"); ("lte", PString "20")]
             [("$gte", JNum 10); ("$lte", JNum 20)] "$lte" (JNum 20) eq_refl).
    cbn. tauto.
Defined.
